(** * bnason/cds: project-integration store and worker key provisioning

    A shallow embedding of

    - the project-integration DAO ([load], [loadAll], [AddOnWorkflow] and
      their exported callers), and
    - the worker's key-install HTTP handler ([keyInstallHandler],
      [keyInstall]),

    together with the properties of these functions that the
    specification states.  Go values are modelled as follows: [int64]
    identifiers as [Z] (no arithmetic is performed on them), Go strings as
    [string], [[]byte] as [list byte], [map[string]string] as
    [gmap string string], a possibly-nil slice as [option (list _)], and a
    Go [(value, error)] pair as a [result].  Calls to collaborators whose
    code lives outside these two files (the gorpmapping layer, the model
    resolver, the worker runtime) are parameters of the development, and
    every such call is recorded in a trace so that statements about what
    was, or was not, invoked can be made. *)

From Stdlib Require Import ZArith Strings.Byte.
From stdpp Require Import gmap strings list.

Local Open Scope Z_scope.
Local Open Scope string_scope.
Local Open Scope list_scope.

(** Outcome of a fallible Go call: [Ok v] stands for [(v, nil)], [Err e]
    for [(zero, e)] with [e != nil]. *)
Inductive result (E A : Type) : Type :=
| Ok (a : A)
| Err (e : E).
Arguments Ok {E A} a.
Arguments Err {E A} e.

Module Integration.

(** ** Data model *)

(** Modelled from the spec: sdk.IntegrationModel is declared outside the
    DAO file.  The specification describes it as carrying a model-level
    identity and the set of named fields that are sensitive. *)
Record IntegrationModel : Type := {
  ModelID : Z;
  SensitiveFields : gset string
}.

(** Modelled from the spec: sdk.ProjectIntegration is declared outside the
    DAO file.  Numeric id, owning project id, name, key/value
    configuration, the id of its model and the attached model. *)
Record ProjectIntegration : Type := {
  ID : Z;
  ProjectID : Z;
  Name : string;
  IntegrationModelID : Z;
  Model : IntegrationModel;
  Config : gmap string string
}.

(** The row type of table project_integration: the integration together
    with the signature of gorpmapping.SignedEntity. *)
Record dbProjectIntegration : Type := {
  Integration_ : ProjectIntegration;
  Signature : list byte
}.

(** Go zero values, [sdk.IntegrationModel{}] and [sdk.ProjectIntegration{}]. *)
Definition zeroModel : IntegrationModel :=
  {| ModelID := 0; SensitiveFields := ∅ |}.

Definition zeroIntegration : ProjectIntegration :=
  {| ID := 0; ProjectID := 0; Name := ""; IntegrationModelID := 0;
     Model := zeroModel; Config := ∅ |}.

(** [pp.Model = imodel] *)
Definition setModel (imodel : IntegrationModel) (p : ProjectIntegration)
  : ProjectIntegration :=
  {| ID := ID p; ProjectID := ProjectID p; Name := Name p;
     IntegrationModelID := IntegrationModelID p;
     Model := imodel; Config := Config p |}.

(** The value a redacted field holds. *)
Definition blank : string := "".

(** Modelled from the spec: the method Blur of sdk.ProjectIntegration is
    declared outside the DAO file.  Redaction blanks, in the in-memory
    record, every configuration field that the attached model marks
    sensitive, and leaves the others as they are. *)
Definition Blur (p : ProjectIntegration) : ProjectIntegration :=
  {| ID := ID p; ProjectID := ProjectID p; Name := Name p;
     IntegrationModelID := IntegrationModelID p;
     Model := Model p;
     Config :=
       map_imap (fun k v =>
                   if decide (k ∈ SensitiveFields (Model p))
                   then Some blank else Some v)
                (Config p) |}.

(** A record holds no sensitive field in clear form. *)
Definition redacted (p : ProjectIntegration) : Prop :=
  ∀ k v, k ∈ SensitiveFields (Model p) → Config p !! k = Some v → v = blank.

(** ** Queries

    The text of a query is kept as the source has it, with runs of white
    space written as one space. *)

Inductive arg : Type :=
| ArgInt (n : Z)
| ArgString (s : string).

(** [gorpmapping.NewQuery(sql).Args(args...)] *)
Record Query : Type := {
  query_sql : string;
  query_args : list arg
}.

Definition NewQuery (sql : string) : Query :=
  {| query_sql := sql; query_args := [] |}.

Definition Args (q : Query) (args : list arg) : Query :=
  {| query_sql := query_sql q; query_args := args |}.

(** The one member of gorpmapping.GetOptions that the DAO uses. *)
Inductive GetOptionFunc : Type :=
| WithDecryption.

(** ** Traces *)

(** What a load does to its collaborators, in order. *)
Inductive event : Type :=
| EvGet (q : Query) (opts : list GetOptionFunc)
| EvGetAll (q : Query) (opts : list GetOptionFunc)
| EvCheckSignature (id : Z)
| EvLoadModel (modelID : Z) (clearPassword : bool)
| EvLogError (format : string) (id : Z).

(** The load asked the store to decrypt the sensitive fields. *)
Definition requests_decryption (ev : event) : bool :=
  match ev with
  | EvGet _ opts | EvGetAll _ opts =>
      existsb (λ o, match o with WithDecryption => true end) opts
  | _ => false
  end.

(** ** Collaborators *)

(** The members of package sdk that the DAO names: Go's [error] values
    are the elements of [error]. *)
Class Sdk (error : Type) : Type := {
  ErrNotFound : error;
  WithStack : error → error
}.

(** The SQL executor [db], seen through the functions that read from it:
    gorpmapping.Get, gorpmapping.GetAll and gorpmapping.CheckSignature,
    and the model resolver LoadModel of the same package. *)
Class Store (error DB : Type) : Type := {
  Get :
    DB → Query → list GetOptionFunc →
    result error (option dbProjectIntegration);
  GetAll :
    DB → Query → list GetOptionFunc →
    result error (list dbProjectIntegration);
  CheckSignature : dbProjectIntegration → list byte → result error bool;
  LoadModel : DB → Z → bool → result error IntegrationModel
}.

Section Store.

Context {error DB : Type} `{!Sdk error} `{!Store error DB}.

(** A computation that may fail and that records its calls. *)
Definition M (A : Type) : Type := result error A * list event.

Definition ret {A} (a : A) : M A := (Ok a, []).
Definition fail {A} (e : error) : M A := (Err e, []).
Definition call {A} (ev : event) (r : result error A) : M A := (r, [ev]).
Definition bind {A B} (m : M A) (k : A → M B) : M B :=
  match m with
  | (Ok a, t) => let '(r, t') := k a in (r, t ++ t')
  | (Err e, t) => (Err e, t)
  end.

Notation "'let*' x ':=' m 'in' k" := (bind m (λ x, k))
  (at level 10, x name, m at level 200, k at level 200, only parsing).

Definition outcome {A} (m : M A) : result error A := m.1.
Definition trace {A} (m : M A) : list event := m.2.

(** [sdk.WithStack(err)] at a return statement, where [err] may be nil. *)
Definition stacked {A} (m : M A) : M A :=
  match m with
  | (Ok a, t) => (Ok a, t)
  | (Err e, t) => (Err (WithStack e), t)
  end.

(** *** load *)

Definition load (db : DB) (query : Query) (clearPassword : bool)
  : M ProjectIntegration :=
  let* found := call (EvGet query [WithDecryption])
                     (Get db query [WithDecryption]) in
  match found with
  | None => fail (WithStack ErrNotFound)
  | Some pp =>
      let* isValid := call (EvCheckSignature (ID (Integration_ pp)))
                           (CheckSignature pp (Signature pp)) in
      if negb isValid then
        let* _ := call (EvLogError
                          "integration.LoadModelByName> model  %d data corrupted"
                          (ID (Integration_ pp))) (Ok tt) in
        fail (WithStack ErrNotFound)
      else
        let* imodel := call (EvLoadModel
                               (IntegrationModelID (Integration_ pp))
                               clearPassword)
                            (LoadModel db
                               (IntegrationModelID (Integration_ pp))
                               clearPassword) in
        let p := setModel imodel (Integration_ pp) in
        let p := if negb clearPassword then Blur p else p in
        ret p
  end.

Definition byNameQuery (key name : string) : Query :=
  Args (NewQuery "SELECT project_integration.* FROM project_integration JOIN project ON project.id = project_integration.project_id WHERE project.projectkey = $1 AND project_integration.name = $2")
       [ArgString key; ArgString name].

Definition LoadProjectIntegrationByName
    (db : DB) (key name : string) (clearPassword : bool)
  : M ProjectIntegration :=
  let query := byNameQuery key name in
  stacked (load db query clearPassword).

Definition byIDQuery (id : Z) : Query :=
  Args (NewQuery "SELECT * from project_integration WHERE id = $1")
       [ArgInt id].

Definition LoadProjectIntegrationByID
    (db : DB) (id : Z) (clearPassword : bool) : M ProjectIntegration :=
  let query := byIDQuery id in
  stacked (load db query clearPassword).

(** *** loadAll *)

(** The body of [for i, p := range pp], from index [i] on; [integrations]
    is the slice made before the loop, as the iterations so far left it. *)
Fixpoint loadAll_loop (db : DB) (clearPassword : bool) (i : nat)
    (pp : list dbProjectIntegration) (integrations : list ProjectIntegration)
  : M (list ProjectIntegration) :=
  match pp with
  | [] => ret integrations
  | p :: rest =>
      let* isValid := call (EvCheckSignature (ID (Integration_ p)))
                           (CheckSignature p (Signature p)) in
      if negb isValid then
        let* _ := call (EvLogError
                          "integration.loadAll> model %d data corrupted"
                          (ID (Integration_ p))) (Ok tt) in
        loadAll_loop db clearPassword (S i) rest integrations
      else
        let* imodel := call (EvLoadModel
                               (IntegrationModelID (Integration_ p))
                               clearPassword)
                            (LoadModel db
                               (IntegrationModelID (Integration_ p))
                               clearPassword) in
        let p := setModel imodel (Integration_ p) in
        let integrations := <[i := p]> integrations in
        let integrations :=
          if negb clearPassword then alter Blur i integrations
          else integrations in
        loadAll_loop db clearPassword (S i) rest integrations
  end.

Definition loadAll (db : DB) (query : Query) (clearPassword : bool)
  : M (list ProjectIntegration) :=
  let* pp := call (EvGetAll query [WithDecryption])
                  (GetAll db query [WithDecryption]) in
  let integrations := replicate (length pp) zeroIntegration in
  loadAll_loop db clearPassword 0 pp integrations.

Definition byProjectIDQuery (id : Z) : Query :=
  Args (NewQuery "SELECT * from project_integration WHERE project_id = $1")
       [ArgInt id].

Definition LoadIntegrationsByProjectID
    (db : DB) (id : Z) (clearPassword : bool) : M (list ProjectIntegration) :=
  let query := byProjectIDQuery id in
  stacked (loadAll db query clearPassword).

Definition byWorkflowIDQuery (id : Z) : Query :=
  Args (NewQuery "SELECT project_integration.* FROM project_integration JOIN workflow_project_integration ON workflow_project_integration.project_integration_id = project_integration.id WHERE workflow_project_integration.workflow_id = $1")
       [ArgInt id].

Definition LoadIntegrationsByWorkflowID
    (db : DB) (id : Z) (clearPassword : bool) : M (list ProjectIntegration) :=
  let query := byWorkflowIDQuery id in
  stacked (loadAll db query clearPassword).

End Store.

(** ** The association table *)

(** Statements the association manager sends to the executor. *)
Inductive statement : Type :=
| InsertLink (workflowID projectIntegrationID : Z)
    (* INSERT INTO workflow_project_integration
         (workflow_id, project_integration_id)
       VALUES ($1, $2) ON CONFLICT DO NOTHING *)
| DeleteLink (workflowID projectIntegrationID : Z)
    (* DELETE FROM workflow_project_integration
       WHERE workflow_id = $1 AND project_integration_id = $2 *)
| DeleteLinksOfWorkflow (workflowID : Z).
    (* DELETE FROM workflow_project_integration WHERE workflow_id = $1 *)

(** Modelled from the spec: the schema of table
    workflow_project_integration is declared outside the DAO file.  The
    specification describes a link as the pair (workflow id, integration
    id) and nothing else, so a row conflicts with an insert exactly when
    it holds the same pair.  [fault] is the error the executor answers
    with while it cannot run statements (nil when it can). *)
Record SqlExecutor (E : Type) : Type := {
  workflow_project_integration : list (Z * Z);
  fault : option E
}.
Arguments workflow_project_integration {E} _.
Arguments fault {E} _.

Section Association.

Context {error : Type} `{!Sdk error}.

Definition withLinks (db : SqlExecutor error) (rows : list (Z * Z))
  : SqlExecutor error :=
  {| workflow_project_integration := rows; fault := fault db |}.

(** [db.Exec(query, args...)] for the three statements above. *)
Definition Exec (db : SqlExecutor error) (st : statement)
  : result error (SqlExecutor error) :=
  match fault db with
  | Some e => Err e
  | None =>
      let rows := workflow_project_integration db in
      match st with
      | InsertLink w i =>
          if decide ((w, i) ∈ rows) then Ok db
          else Ok (withLinks db (rows ++ [(w, i)]))
      | DeleteLink w i =>
          Ok (withLinks db (filter (λ r, r ≠ (w, i)) rows))
      | DeleteLinksOfWorkflow w =>
          Ok (withLinks db (filter (λ r, r.1 ≠ w) rows))
      end
  end.

(** The three operations return Go's [error] (nil is [None]) and leave the
    executor in a new state. *)
Definition AddOnWorkflow (db : SqlExecutor error)
    (workflowID projectIntegrationID : Z)
  : option error * SqlExecutor error :=
  match Exec db (InsertLink workflowID projectIntegrationID) with
  | Err err => (Some (WithStack err), db)
  | Ok db' => (None, db')
  end.

Definition RemoveFromWorkflow (db : SqlExecutor error)
    (workflowID projectIntegrationID : Z)
  : option error * SqlExecutor error :=
  match Exec db (DeleteLink workflowID projectIntegrationID) with
  | Err err => (Some (WithStack err), db)
  | Ok db' => (None, db')
  end.

Definition DeleteFromWorkflow (db : SqlExecutor error) (workflowID : Z)
  : option error * SqlExecutor error :=
  match Exec db (DeleteLinksOfWorkflow workflowID) with
  | Err err => (Some (WithStack err), db)
  | Ok db' => (None, db')
  end.

(** Number of association rows holding the pair. *)
Definition link_count (db : SqlExecutor error) (w i : Z) : nat :=
  length (filter (λ r, r = (w, i)) (workflow_project_integration db)).

End Association.

End Integration.

Module KeyHandler.

(** ** Data model *)

(** [sdk.Error], with the two fields the handler reads and writes. *)
Record Error : Type := {
  Message : string;
  Status : Z
}.

(** Go's [error] values as the handler tells them apart: the type
    assertion to a pointer to sdk.Error succeeds on the first kind only;
    for the second, [msg] is what [err.Error()] returns. *)
Inductive goerror : Type :=
| SdkErrorPtr (e : Error)
| OtherError (msg : string).

(** [sdk.Variable]: a named secret of the job. *)
Record Variable_ : Type := {
  Name : string;
  Value : string
}.

(** [workerruntime.KeyResponse] *)
Record KeyResponse : Type := {
  PKey : string
}.

(** Status codes of net/http. *)
Definition StatusOK : Z := 200.
Definition StatusBadRequest : Z := 400.
Definition StatusNotFound : Z := 404.
Definition StatusInternalServerError : Z := 500.

(** What [writeJSON(w, data, status)] sends. *)
Inductive payload : Type :=
| ErrorBody (e : Error)
| KeyBody (r : KeyResponse).

Record Response : Type := {
  body : payload;
  code : Z
}.

Definition writeJSON (data : payload) (status : Z) : Response :=
  {| body := data; code := status |}.

(** The request as the handler reads it: the route variables and the
    outcome of [ioutil.ReadAll(r.Body)]. *)
Record Request : Type := {
  vars : gmap string string;
  Body : result goerror string
}.

(** ** Collaborators *)

(** The members of package sdk, and of encoding/json, that the handler
    uses.  [Unmarshal body] decodes into a fresh [map[string]string]; its
    error is given by its text. *)
Class Sdk : Type := {
  ErrWrongRequest : Error;
  ErrUnknownError : Error;
  NewError : Error → goerror → Error;
  PathIsAbs : string → bool;
  Unmarshal : string → result string (gmap string string)
}.

(** [workerruntime.Runtime], the install capability of the worker; [W]
    is the state it acts on (the worker's filesystem). *)
Class Runtime (W : Type) : Type := {
  InstallKey : Variable_ → W → result goerror KeyResponse * W;
  InstallKeyTo : Variable_ → string → W → result goerror KeyResponse * W
}.

(** The calls made to the install capability, in order. *)
Inductive call : Type :=
| CallInstallKey (key : Variable_)
| CallInstallKeyTo (key : Variable_) (filename : string).

(** [CurrentWorker]: the secrets of the current job ([None] is the nil
    slice) and the state of the runtime. *)
Record CurrentWorker (W : Type) : Type := {
  currentJob_secrets : option (list Variable_);
  runtime : W
}.
Arguments currentJob_secrets {W} _.
Arguments runtime {W} _.

Section Handler.

Context `{!Sdk} {W : Type} `{!Runtime W}.

(** What a run leaves behind: the value, the runtime's state and the calls
    made to it. *)
Definition run (A : Type) : Type := A * W * list call.

(** *** keyInstall *)

Definition keyInstall (wk : W) (filename : string) (key : Variable_)
  : run (result goerror KeyResponse) :=
  if decide (filename = "") then
    let '(r, wk') := InstallKey key wk in
    (r, wk', [CallInstallKey key])
  else if negb (PathIsAbs filename) then
    (Err (OtherError "unsupported relative path"), wk, [])
  else
    let '(r, wk') := InstallKeyTo key filename wk in
    (r, wk', [CallInstallKeyTo key filename]).

(** *** keyInstallHandler *)

(** Reading and decoding the body: either the decoded map or the error
    response to send. *)
Definition parseBody (r : Request) : result Response (gmap string string) :=
  match Body r with
  | Err err =>
      let sdkerr := NewError ErrWrongRequest err in
      Err (writeJSON (ErrorBody sdkerr) (Status sdkerr))
  | Ok body =>
      if (0 <? String.length body)%nat then
        match Unmarshal body with
        | Err msg =>
            let sdkerr :=
              {| Message := msg; Status := Status ErrWrongRequest |} in
            Err (writeJSON (ErrorBody sdkerr) (Status sdkerr))
        | Ok mapBody => Ok mapBody
        end
      else Ok ∅
  end.

(** The name under which the job holds the private part of a key. *)
Definition privName (keyName : string) : string :=
  "cds.key." +:+ keyName +:+ ".priv".

(** [for _, k := range secrets { if k.Name == ... { key = &k; break } }] *)
Definition lookupKey (secrets : list Variable_) (keyName : string)
  : option Variable_ :=
  find (λ k, bool_decide (Name k = privName keyName)) secrets.

(** [mux.Vars(r)["key"]] *)
Definition keyName_of (r : Request) : string := default "" (vars r !! "key").

Definition keyInstallHandler (wk : CurrentWorker W) (r : Request)
  : run Response :=
  let keyName := keyName_of r in
  match parseBody r with
  | Err response => (response, runtime wk, [])
  | Ok mapBody =>
      match currentJob_secrets wk with
      | None =>
          let err := {| Message := "Cannot find any keys for your job";
                        Status := StatusBadRequest |} in
          (writeJSON (ErrorBody err) (Status err), runtime wk, [])
      | Some secrets =>
          match lookupKey secrets keyName with
          | None =>
              let err := {| Message := "Key " +:+ keyName +:+ " not found";
                            Status := StatusNotFound |} in
              (writeJSON (ErrorBody err) (Status err), runtime wk, [])
          | Some key =>
              let filename := default "" (mapBody !! "file") in
              let '(response, w', calls) :=
                keyInstall (runtime wk) filename key in
              match response with
              | Err (SdkErrorPtr sdkerr) =>
                  (writeJSON (ErrorBody sdkerr) (Status sdkerr), w', calls)
              | Err (OtherError msg) =>
                  let err := {| Message := msg;
                                Status := Status ErrUnknownError |} in
                  (writeJSON (ErrorBody err) (Status err), w', calls)
              | Ok response =>
                  (writeJSON (KeyBody response) 200, w', calls)
              end
          end
      end
  end.

Definition response_of (x : run Response) : Response := x.1.1.
Definition calls_of {A} (x : run A) : list call := x.2.
Definition world_of {A} (x : run A) : W := x.1.2.
Definition value_of {A} (x : run A) : A := x.1.1.

End Handler.

End KeyHandler.

(** * A concrete store and a concrete worker

    One instance of each collaborator, small enough to evaluate, on which
    the statements below are exercised. *)

Module Fixture.

Import Integration.

Inductive error : Type :=
| NotFound
| Stack (e : error)
| NoSuchModel (id : Z).

#[export] Instance fixture_sdk : Sdk error :=
  {| ErrNotFound := NotFound; WithStack := Stack |}.

Record DB : Type := {
  rows : list dbProjectIntegration;
  models : list IntegrationModel
}.

(** A row verifies when it carries this signature. *)
Definition good_signature : list byte := [x2a].

Definition select_by_arg (db : DB) (q : Query) : list dbProjectIntegration :=
  match query_args q with
  | [ArgInt n] =>
      if decide (query_sql q = "SELECT * from project_integration WHERE id = $1")
      then filter (λ r, ID (Integration_ r) = n) (rows db)
      else filter (λ r, ProjectID (Integration_ r) = n) (rows db)
  | _ => []
  end.

#[export] Instance fixture_store : Store error DB :=
  {| Get db q _ := Ok (head (select_by_arg db q));
     GetAll db q _ := Ok (select_by_arg db q);
     CheckSignature _ sig :=
       Ok (bool_decide (Byte.to_N <$> sig = Byte.to_N <$> good_signature));
     LoadModel db id _ :=
       match find (λ m, bool_decide (ModelID m = id)) (models db) with
       | Some m => Ok m
       | None => Err (NoSuchModel id)
       end |}.

Definition model7 : IntegrationModel :=
  {| ModelID := 7; SensitiveFields := {["token"]} |}.

Definition github : ProjectIntegration :=
  {| ID := 1; ProjectID := 10; Name := "github"; IntegrationModelID := 7;
     Model := zeroModel;
     Config := <["token" := "s3cret"]> {["url" := "https://example.org"]} |}.

Definition kafka : ProjectIntegration :=
  {| ID := 2; ProjectID := 10; Name := "kafka"; IntegrationModelID := 7;
     Model := zeroModel;
     Config := {["token" := "hunter2"]} |}.

Definition orphan : ProjectIntegration :=
  {| ID := 3; ProjectID := 11; Name := "orphan"; IntegrationModelID := 99;
     Model := zeroModel; Config := ∅ |}.

(** Row 2 carries a signature that does not verify; row 3 names a model
    that does not exist. *)
Definition db0 : DB :=
  {| rows := [ {| Integration_ := github; Signature := good_signature |};
               {| Integration_ := kafka; Signature := [x00] |};
               {| Integration_ := orphan; Signature := good_signature |} ];
     models := [model7] |}.

(** Project 10 with a third row, which verifies and names a model that
    does not exist. *)
Definition stray : ProjectIntegration :=
  {| ID := 4; ProjectID := 10; Name := "stray"; IntegrationModelID := 99;
     Model := zeroModel; Config := ∅ |}.

Definition db_stray : DB :=
  {| rows := [ {| Integration_ := github; Signature := good_signature |};
               {| Integration_ := kafka; Signature := [x00] |};
               {| Integration_ := stray; Signature := good_signature |};
               {| Integration_ := github; Signature := good_signature |} ];
     models := [model7] |}.

(** What a load with clearPassword=false makes of row 1. *)
Definition github_redacted : ProjectIntegration :=
  {| ID := 1; ProjectID := 10; Name := "github"; IntegrationModelID := 7;
     Model := model7;
     Config := <["token" := blank]> {["url" := "https://example.org"]} |}.

(** A second store, over errors given by their text: the rows are the
    database itself, every model resolves, and the signing subsystem
    cannot check a row that carries no signature at all. *)
#[export] Instance text_sdk : Sdk string | 100 :=
  {| ErrNotFound := "not found"; WithStack e := e |}.

#[export] Instance unsigned_store
  : Store string (list dbProjectIntegration) | 100 :=
  {| Get db _ _ := Ok (head db);
     GetAll db _ _ := Ok db;
     CheckSignature _ sig :=
       match sig with
       | [] => Err "no signature to check"
       | _ => Ok (bool_decide (Byte.to_N <$> sig = Byte.to_N <$> good_signature))
       end;
     LoadModel _ id _ := Ok {| ModelID := id; SensitiveFields := ∅ |} |}.

Definition db_unsigned : list dbProjectIntegration :=
  [ {| Integration_ := github; Signature := good_signature |};
    {| Integration_ := orphan; Signature := [] |} ].

(** An executor holding one association row. *)
Definition links0 : SqlExecutor error :=
  {| workflow_project_integration := [(5, 1)]; fault := None |}.

(** ** The worker *)

Import KeyHandler.

(** The filesystem: the files written so far, last first. *)
Definition FS : Type := list (string * string).

#[export] Instance fixture_runtime : Runtime FS :=
  {| InstallKey key fs :=
       let path := "/tmp/" +:+ KeyHandler.Name key in
       (Ok {| PKey := path |}, (path, Value key) :: fs);
     InstallKeyTo key filename fs :=
       (Ok {| PKey := filename |}, (filename, Value key) :: fs) |}.

Definition dq : string := String (Ascii.ascii_of_nat 34) "".

(** The body [{"file":"<path>"}]. *)
Definition file_body (path : string) : string :=
  "{" +:+ dq +:+ "file" +:+ dq +:+ ":" +:+ dq +:+ path +:+ dq +:+ "}".

(** A decoder for the bodies [{}] and [{"file":"<path>"}]; anything else
    is reported as malformed. *)
Definition decode (body : string) : result string (gmap string string) :=
  let pre := "{" +:+ dq +:+ "file" +:+ dq +:+ ":" +:+ dq in
  let post := dq +:+ "}" in
  let n := String.length body in
  if decide (body = "{}") then Ok ∅
  else if (String.prefix pre body
           && (String.length pre + String.length post <=? n)%nat
           && bool_decide
                (String.substring (n - String.length post)
                   (String.length post) body = post))%bool
  then Ok {["file" :=
              String.substring (String.length pre)
                (n - String.length pre - String.length post) body]}
  else Err "unexpected end of JSON input".

#[export] Instance fixture_worker_sdk : KeyHandler.Sdk :=
  {| ErrWrongRequest :=
       {| Message := "wrong request"; Status := StatusBadRequest |};
     ErrUnknownError :=
       {| Message := "internal server error";
          Status := StatusInternalServerError |};
     NewError e _ := e;
     PathIsAbs s := String.prefix "/" s;
     Unmarshal := decode |}.

Definition deploy_key : Variable_ :=
  {| KeyHandler.Name := "cds.key.deploy.priv"; Value := "PRIVATE KEY" |}.

Definition worker (secrets : option (list Variable_)) : CurrentWorker FS :=
  {| currentJob_secrets := secrets; runtime := [] |}.

Definition request (keyName : string) (body : string) : Request :=
  {| vars := {["key" := keyName]}; Body := Ok body |}.

(** A job that holds two secrets under the name of the key deploy, after
    one of another name. *)
Definition other_key : Variable_ :=
  {| KeyHandler.Name := "cds.key.other.priv"; Value := "OTHER KEY" |}.

Definition stale_deploy_key : Variable_ :=
  {| KeyHandler.Name := "cds.key.deploy.priv"; Value := "STALE KEY" |}.

(** A worker whose disk takes no file: the default install fails with an
    error of package sdk that carries its own status, the install to a
    path with a plain error.  The state counts the attempts. *)
Record ReadOnlyDisk : Type := {
  attempts : nat
}.

Definition disk_full : Error :=
  {| Message := "no space left on device"; Status := 507 |}.

#[export] Instance readonly_runtime : Runtime ReadOnlyDisk :=
  {| InstallKey _ d :=
       (Err (SdkErrorPtr disk_full), {| attempts := S (attempts d) |});
     InstallKeyTo _ _ d :=
       (Err (OtherError "permission denied"),
        {| attempts := S (attempts d) |}) |}.

Definition readonly_worker (secrets : option (list Variable_))
  : CurrentWorker ReadOnlyDisk :=
  {| currentJob_secrets := secrets; runtime := {| attempts := 0 |} |}.

(** An executor that cannot run statements. *)
Definition links_down : SqlExecutor error :=
  {| workflow_project_integration := [(5, 1)]; fault := Some NotFound |}.

End Fixture.

(** * The load pipeline *)

Import Integration.

Section LoadFacts.

Context {error DB : Type} `{!Sdk error} `{!Store error DB}.

Implicit Types (db : DB) (q : Query) (p : ProjectIntegration)
  (pp : list dbProjectIntegration) (l : list ProjectIntegration).

(** ** Redaction *)

Lemma zeroIntegration_redacted : redacted zeroIntegration.
Proof. intros k v Hk. simpl in Hk. set_solver. Qed.

Lemma Blur_redacted p : redacted (Blur p).
Proof.
  intros k v Hk Hv. simpl in *.
  rewrite map_lookup_imap in Hv.
  destruct (Config p !! k) as [v0|]; simpl in Hv; [|done].
  rewrite decide_True in Hv by done. congruence.
Qed.

(** Blur leaves the fields that the model does not mark as they are. *)
Lemma Blur_keeps_plain p k :
  k ∉ SensitiveFields (Model p) → Config (Blur p) !! k = Config p !! k.
Proof.
  intros Hk. simpl. rewrite map_lookup_imap.
  destruct (Config p !! k); simpl; [|done].
  by rewrite decide_False.
Qed.

Lemma Forall_redacted_store (i : nat) p l :
  Forall redacted l → Forall redacted (alter Blur i (<[i := p]> l)).
Proof.
  revert i. induction l as [|x l IH]; intros i Hl; [done|].
  inversion_clear Hl as [|? ? Hx Hl'].
  destruct i as [|i]; simpl.
  - constructor; [apply Blur_redacted | done].
  - constructor; [done | by apply IH].
Qed.

(** ** One iteration of the loop of loadAll *)

Lemma loadAll_loop_cons db (c : bool) (i : nat) (r : dbProjectIntegration)
    pp l :
  loadAll_loop db c i (r :: pp) l =
  match CheckSignature r (Signature r) with
  | Err e => (Err e, [EvCheckSignature (ID (Integration_ r))])
  | Ok false =>
      let rest := loadAll_loop db c (S i) pp l in
      (outcome rest,
       EvCheckSignature (ID (Integration_ r))
       :: EvLogError "integration.loadAll> model %d data corrupted"
            (ID (Integration_ r))
       :: trace rest)
  | Ok true =>
      match LoadModel db (IntegrationModelID (Integration_ r)) c with
      | Err e =>
          (Err e,
           [EvCheckSignature (ID (Integration_ r));
            EvLoadModel (IntegrationModelID (Integration_ r)) c])
      | Ok m =>
          let l1 := <[i := setModel m (Integration_ r)]> l in
          let l2 := if negb c then alter Blur i l1 else l1 in
          let rest := loadAll_loop db c (S i) pp l2 in
          (outcome rest,
           EvCheckSignature (ID (Integration_ r))
           :: EvLoadModel (IntegrationModelID (Integration_ r)) c
           :: trace rest)
      end
  end.
Proof.
  simpl. unfold bind, call.
  destruct (CheckSignature r (Signature r)) as [[|]|e]; simpl; [| |done].
  - destruct (LoadModel db _ c) as [m|e]; simpl; [|done].
    by destruct (loadAll_loop db c (S i) pp _) as [res t].
  - by destruct (loadAll_loop db c (S i) pp l) as [res t].
Qed.

(** The loop never changes the length of the slice made before it. *)
Lemma loadAll_loop_length db (c : bool) pp :
  ∀ (i : nat) l l',
    outcome (loadAll_loop db c i pp l) = Ok l' → length l' = length l.
Proof.
  induction pp as [|r pp IH]; intros i l l' Hok.
  - simpl in Hok. by injection Hok as <-.
  - rewrite loadAll_loop_cons in Hok.
    destruct (CheckSignature r (Signature r)) as [[|]|e]; [| |done].
    + destruct (LoadModel db _ c) as [m|e]; [|done].
      apply IH in Hok. rewrite Hok.
      destruct c; simpl; by rewrite ?length_alter, ?length_insert.
    + by apply IH in Hok.
Qed.

Lemma loadAll_loop_redacted db pp :
  ∀ (i : nat) l l',
    Forall redacted l →
    outcome (loadAll_loop db false i pp l) = Ok l' → Forall redacted l'.
Proof.
  induction pp as [|r pp IH]; intros i l l' Hl Hok.
  - simpl in Hok. by injection Hok as <-.
  - rewrite loadAll_loop_cons in Hok.
    destruct (CheckSignature r (Signature r)) as [[|]|e]; [| |done].
    + destruct (LoadModel db _ false) as [m|e]; [|done].
      eapply IH; [|exact Hok]. by apply Forall_redacted_store.
    + by eapply IH.
Qed.

Lemma loadAll_loop_model_failure db (c : bool) (id : Z) (c' : bool)
    (e : error) pp :
  LoadModel db id c' = Err e →
  ∀ (i : nat) l,
    EvLoadModel id c' ∈ trace (loadAll_loop db c i pp l) →
    outcome (loadAll_loop db c i pp l) = Err e ∧
    last (trace (loadAll_loop db c i pp l)) = Some (EvLoadModel id c').
Proof.
  intros Hfail. induction pp as [|r pp IH]; intros i l Hin.
  - simpl in Hin. by apply elem_of_nil in Hin.
  - rewrite loadAll_loop_cons in Hin |- *.
    destruct (CheckSignature r (Signature r)) as [[|]|e0].
    + destruct (LoadModel db (IntegrationModelID (Integration_ r)) c)
        as [m|e0] eqn:Hm; simpl in Hin |- *.
      * rewrite !elem_of_cons in Hin.
        destruct Hin as [Hin|[Hin|Hin]]; [done| |].
        { injection Hin as -> ->. congruence. }
        destruct (IH _ _ Hin) as [Hout Hlast]. split; [done|].
        rewrite !last_cons, Hlast. done.
      * rewrite !elem_of_cons in Hin.
        destruct Hin as [Hin|[Hin|Hin]]; [done| |by apply elem_of_nil in Hin].
        injection Hin as -> ->. split; [congruence|done].
    + simpl in Hin |- *. rewrite !elem_of_cons in Hin.
      destruct Hin as [Hin|[Hin|Hin]]; [done|done|].
      destruct (IH _ _ Hin) as [Hout Hlast]. split; [done|].
      rewrite !last_cons, Hlast. done.
    + simpl in Hin. rewrite elem_of_cons in Hin.
      destruct Hin as [Hin|Hin]; [done|by apply elem_of_nil in Hin].
Qed.

(** The loop writes only the slots of rows that verify: slots before the
    current index, and the slot of every row whose signature does not
    verify, are as they were. *)
Lemma loadAll_loop_untouched db (c : bool) pp :
  ∀ (i : nat) l l',
    outcome (loadAll_loop db c i pp l) = Ok l' →
    ∀ k : nat,
      (k < i)%nat
      ∨ ((i ≤ k)%nat
         ∧ ∃ r, pp !! (k - i)%nat = Some r
                ∧ CheckSignature r (Signature r) = Ok false) →
      l' !! k = l !! k.
Proof.
  induction pp as [|r0 pp IH]; intros i l l' Hok k Hk.
  - simpl in Hok. by injection Hok as <-.
  - rewrite loadAll_loop_cons in Hok.
    destruct (CheckSignature r0 (Signature r0)) as [[|]|e] eqn:Hsig;
      [| |done].
    + destruct (LoadModel db _ c) as [m|e]; [|done]. simpl in Hok.
      assert (k ≠ i) as Hne.
      { destruct Hk as [?|(Hle & r & Hr & Hbad)]; [lia|].
        intros ->. rewrite Nat.sub_diag in Hr. simpl in Hr.
        injection Hr as <-. congruence. }
      rewrite (IH _ _ _ Hok k).
      * destruct c; simpl;
          rewrite ?list_lookup_alter_ne, ?list_lookup_insert_ne by done;
          done.
      * destruct Hk as [?|(Hle & r & Hr & Hbad)]; [left; lia|].
        right. split; [lia|]. exists r. split; [|done].
        replace (k - i)%nat with (S (k - S i)) in Hr by lia. done.
    + simpl in Hok. apply (IH _ _ _ Hok k).
      destruct Hk as [?|(Hle & r & Hr & Hbad)]; [left; lia|].
      destruct (decide (k = i)) as [->|Hne]; [left; lia|].
      right. split; [lia|]. exists r. split; [|done].
      replace (k - i)%nat with (S (k - S i)) in Hr by lia. done.
Qed.

(** ** load and loadAll, case by case *)

Lemma load_eq db q (c : bool) :
  load db q c =
  match Get db q [WithDecryption] with
  | Err e => (Err e, [EvGet q [WithDecryption]])
  | Ok None => (Err (WithStack ErrNotFound), [EvGet q [WithDecryption]])
  | Ok (Some r) =>
      match CheckSignature r (Signature r) with
      | Err e =>
          (Err e,
           [EvGet q [WithDecryption]; EvCheckSignature (ID (Integration_ r))])
      | Ok false =>
          (Err (WithStack ErrNotFound),
           [EvGet q [WithDecryption]; EvCheckSignature (ID (Integration_ r));
            EvLogError "integration.LoadModelByName> model  %d data corrupted"
              (ID (Integration_ r))])
      | Ok true =>
          match LoadModel db (IntegrationModelID (Integration_ r)) c with
          | Err e =>
              (Err e,
               [EvGet q [WithDecryption];
                EvCheckSignature (ID (Integration_ r));
                EvLoadModel (IntegrationModelID (Integration_ r)) c])
          | Ok m =>
              (Ok (if negb c then Blur (setModel m (Integration_ r))
                   else setModel m (Integration_ r)),
               [EvGet q [WithDecryption];
                EvCheckSignature (ID (Integration_ r));
                EvLoadModel (IntegrationModelID (Integration_ r)) c])
          end
      end
  end.
Proof.
  unfold load, bind, call, fail, ret.
  destruct (Get db q [WithDecryption]) as [[r|]|e]; simpl; [|done|done].
  destruct (CheckSignature r (Signature r)) as [[|]|e]; simpl; [|done|done].
  by destruct (LoadModel db _ c) as [m|e].
Qed.

Lemma loadAll_eq db q (c : bool) :
  loadAll db q c =
  match GetAll db q [WithDecryption] with
  | Err e => (Err e, [EvGetAll q [WithDecryption]])
  | Ok pp =>
      let rest :=
        loadAll_loop db c 0 pp (replicate (length pp) zeroIntegration) in
      (outcome rest, EvGetAll q [WithDecryption] :: trace rest)
  end.
Proof.
  unfold loadAll, bind, call.
  destruct (GetAll db q [WithDecryption]) as [pp|e]; simpl; [|done].
  by destruct (loadAll_loop db c 0 pp _) as [res t].
Qed.

Lemma stacked_Ok {A} (m : M A) (a : A) :
  outcome (stacked m) = Ok a ↔ outcome m = Ok a.
Proof. destruct m as [[a'|e] t]; simpl; split; congruence. Qed.

Lemma stacked_Err {A} (m : M A) (e : error) :
  outcome m = Err e → outcome (stacked m) = Err (WithStack e).
Proof. destruct m as [[a'|e'] t]; simpl; congruence. Qed.

Lemma stacked_trace {A} (m : M A) : trace (stacked m) = trace m.
Proof. by destruct m as [[a'|e'] t]. Qed.

(** A successful loadAll returns as many records as rows were fetched,
    whatever their signatures. *)
Lemma loadAll_length db q (c : bool) pp l :
  GetAll db q [WithDecryption] = Ok pp →
  outcome (loadAll db q c) = Ok l → length l = length pp.
Proof.
  intros Hpp Hok. rewrite loadAll_eq, Hpp in Hok. simpl in Hok.
  apply loadAll_loop_length in Hok. by rewrite Hok, length_replicate.
Qed.

(** In the result of a successful loadAll, the slot of a fetched row
    whose signature does not verify holds the zero value. *)
Lemma loadAll_tampered_slot db q (c : bool) pp l (i : nat)
    (r : dbProjectIntegration) :
  GetAll db q [WithDecryption] = Ok pp →
  outcome (loadAll db q c) = Ok l →
  pp !! i = Some r →
  CheckSignature r (Signature r) = Ok false →
  l !! i = Some zeroIntegration.
Proof.
  intros Hpp Hok Hr Hbad. rewrite loadAll_eq, Hpp in Hok. simpl in Hok.
  rewrite (loadAll_loop_untouched _ _ _ _ _ _ Hok i).
  - apply lookup_replicate_2. by eapply lookup_lt_Some.
  - right. split; [lia|]. exists r. by rewrite Nat.sub_0_r.
Qed.

(** ** The statements of the specification *)

(** C2. A single-record load answers a query that matches no row, and a
    query whose row is found but does not verify, with the same error,
    sdk.ErrNotFound with a stack; so do the exported callers, which add
    their own stack to it.  No other error kind is produced for a
    tampered row. *)
Theorem single_load_tampered_is_NotFound db q (c : bool) :
  Get db q [WithDecryption] = Ok None
  ∨ (∃ r, Get db q [WithDecryption] = Ok (Some r)
          ∧ CheckSignature r (Signature r) = Ok false) →
  outcome (load db q c) = Err (WithStack ErrNotFound) ∧
  outcome (stacked (load db q c)) = Err (WithStack (WithStack ErrNotFound)).
Proof.
  intros Hcase.
  assert (outcome (load db q c) = Err (WithStack ErrNotFound)) as Hload.
  { rewrite load_eq.
    destruct Hcase as [-> | (r & -> & ->)]; reflexivity. }
  split; [done|]. by apply stacked_Err.
Qed.

(** C3, as the code has it.  Every load, single or batch, starts by
    asking the store for the rows with the option WithDecryption,
    whatever the clear-text flag: the flag is not consulted for
    decryption.  It is passed on to the model resolver, and it decides
    whether the result is redacted. *)
Theorem load_always_requests_decryption db q (c : bool) :
  head (trace (load db q c)) = Some (EvGet q [WithDecryption]) ∧
  head (trace (loadAll db q c)) = Some (EvGetAll q [WithDecryption]) ∧
  existsb requests_decryption (trace (load db q c)) = true ∧
  existsb requests_decryption (trace (loadAll db q c)) = true.
Proof.
  rewrite load_eq, loadAll_eq.
  destruct (Get db q [WithDecryption]) as [[r|]|e];
    [destruct (CheckSignature r (Signature r)) as [[|]|e];
     [destruct (LoadModel db _ c) as [m|e]| |]| |];
    (destruct (GetAll db q [WithDecryption]) as [pp|e']; by simpl).
Qed.

(** C4. With clearPassword=false, every record that a load returns, alone
    or in a batch, holds the blank value in each configuration field
    that its attached model marks sensitive. *)
Theorem load_without_clear_text_is_redacted db q p :
  (outcome (load db q false) = Ok p → redacted p) ∧
  (∀ l, outcome (loadAll db q false) = Ok l → p ∈ l → redacted p).
Proof.
  split.
  - rewrite load_eq.
    destruct (Get db q [WithDecryption]) as [[r|]|e]; [|done|done].
    destruct (CheckSignature r (Signature r)) as [[|]|e]; [|done|done].
    destruct (LoadModel db _ false) as [m|e]; [|done].
    simpl. intros [= <-]. apply Blur_redacted.
  - intros l Hok Hp. rewrite loadAll_eq in Hok.
    destruct (GetAll db q [WithDecryption]) as [pp|e]; [|done].
    simpl in Hok. apply loadAll_loop_redacted in Hok.
    + rewrite Forall_forall in Hok. by apply Hok.
    + apply Forall_replicate, zeroIntegration_redacted.
Qed.

(** ** Further properties of the loads *)

(** What the loop makes of each row, on success: the slot of a row that
    does not verify is as it was, and the slot of a row that verifies
    holds the row with its model, redacted unless clear text was asked. *)
Lemma loadAll_loop_rows db (c : bool) pp :
  ∀ (i : nat) l l',
    (i + length pp ≤ length l)%nat →
    outcome (loadAll_loop db c i pp l) = Ok l' →
    ∀ (j : nat) r,
      pp !! j = Some r →
      (CheckSignature r (Signature r) = Ok false
       ∧ l' !! (i + j)%nat = l !! (i + j)%nat)
      ∨ (CheckSignature r (Signature r) = Ok true
         ∧ ∃ m, LoadModel db (IntegrationModelID (Integration_ r)) c = Ok m
                ∧ l' !! (i + j)%nat
                  = Some (if c then setModel m (Integration_ r)
                          else Blur (setModel m (Integration_ r)))).
Proof.
  induction pp as [|r0 pp IH]; intros i l l' Hlen Hok j r Hr; [done|].
  simpl in Hlen. rewrite loadAll_loop_cons in Hok.
  destruct (CheckSignature r0 (Signature r0)) as [[|]|e] eqn:Hsig; [| |done].
  - destruct (LoadModel db _ c) as [m|e] eqn:Hm; [|done]. simpl in Hok.
    destruct j as [|j]; simpl in Hr.
    + injection Hr as <-. right. split; [done|]. exists m. split; [done|].
      rewrite Nat.add_0_r.
      rewrite (loadAll_loop_untouched _ _ _ _ _ _ Hok i) by (left; lia).
      destruct c; simpl.
      * apply list_lookup_insert_eq. lia.
      * rewrite list_lookup_alter_eq, list_lookup_insert_eq by lia. done.
    + replace (i + S j)%nat with (S i + j)%nat by lia.
      assert ((S i + j)%nat ≠ i) as Hne by lia.
      match type of Hok with
      | outcome (loadAll_loop _ _ _ _ ?l2) = _ =>
          assert (S i + length pp ≤ length l2)%nat as Hlen2
            by (destruct c; simpl; rewrite ?length_alter, ?length_insert; lia)
      end.
      destruct (IH (S i) _ l' Hlen2 Hok j r Hr)
        as [[Hbad Hsame]|Hgood]; [left|by right].
      split; [done|]. rewrite Hsame.
      destruct c; simpl;
        rewrite ?list_lookup_alter_ne, ?list_lookup_insert_ne by done; done.
  - simpl in Hok. destruct j as [|j]; simpl in Hr.
    + injection Hr as <-. left. split; [done|].
      apply (loadAll_loop_untouched _ _ _ _ _ _ Hok). left. lia.
    + replace (i + S j)%nat with (S i + j)%nat by lia.
      assert (S i + length pp ≤ length l)%nat as Hlen2 by lia.
      apply (IH (S i) l l' Hlen2 Hok j r Hr).
Qed.

(** The loop calls the model resolver only for rows that verify, with
    the model id of the row and the flag of the caller. *)
Lemma loadAll_loop_resolver_calls db (c : bool) (id : Z) (c' : bool) pp :
  ∀ (i : nat) l,
    EvLoadModel id c' ∈ trace (loadAll_loop db c i pp l) →
    ∃ r, r ∈ pp ∧ CheckSignature r (Signature r) = Ok true
         ∧ id = IntegrationModelID (Integration_ r) ∧ c' = c.
Proof.
  induction pp as [|r0 pp IH]; intros i l Hin.
  - simpl in Hin. by apply elem_of_nil in Hin.
  - rewrite loadAll_loop_cons in Hin.
    destruct (CheckSignature r0 (Signature r0)) as [[|]|e] eqn:Hsig.
    + destruct (LoadModel db _ c) as [m|e]; simpl in Hin;
        rewrite !elem_of_cons in Hin;
        destruct Hin as [Hin|[Hin|Hin]]; try done.
      * injection Hin as -> ->. exists r0. split; [left|done].
      * destruct (IH _ _ Hin) as (r & Hr & Hrest).
        exists r. split; [by right|done].
      * injection Hin as -> ->. exists r0. split; [left|done].
      * by apply elem_of_nil in Hin.
    + simpl in Hin. rewrite !elem_of_cons in Hin.
      destruct Hin as [Hin|[Hin|Hin]]; [done|done|].
      destruct (IH _ _ Hin) as (r & Hr & Hrest).
      exists r. split; [by right|done].
    + simpl in Hin. rewrite elem_of_cons in Hin.
      destruct Hin as [Hin|Hin]; [done|by apply elem_of_nil in Hin].
Qed.

(** X1. A record that load returns always comes from a row that the
    store found and whose signature verified, with the model that the
    resolver returned for the row's model id attached: it is that row as
    fetched when clear text was asked, and that row after Blur when it
    was not. *)
Theorem load_returns_only_verified_rows db q (c : bool) p :
  outcome (load db q c) = Ok p →
  ∃ r m,
    Get db q [WithDecryption] = Ok (Some r)
    ∧ CheckSignature r (Signature r) = Ok true
    ∧ LoadModel db (IntegrationModelID (Integration_ r)) c = Ok m
    ∧ p = (if c then setModel m (Integration_ r)
           else Blur (setModel m (Integration_ r))).
Proof.
  rewrite load_eq.
  destruct (Get db q [WithDecryption]) as [[r|]|e] eqn:Hget; [|done|done].
  destruct (CheckSignature r (Signature r)) as [[|]|e] eqn:Hsig;
    [|done|done].
  destruct (LoadModel db _ c) as [m|e] eqn:Hm; [|done].
  simpl. intros [= <-]. exists r, m. do 3 (split; [done|]). by destruct c.
Qed.

(** X2. During a load, single or batch, the model resolver is called only
    for a fetched row whose signature verified, and only with that row's
    model id and the caller's clear-text flag: no model is resolved for a
    missing or tampered row. *)
Theorem resolver_called_only_for_verified_rows db q (c : bool) (id : Z)
    (c' : bool) :
  (EvLoadModel id c' ∈ trace (load db q c) →
   ∃ r, Get db q [WithDecryption] = Ok (Some r)
        ∧ CheckSignature r (Signature r) = Ok true
        ∧ id = IntegrationModelID (Integration_ r) ∧ c' = c) ∧
  (EvLoadModel id c' ∈ trace (loadAll db q c) →
   ∃ pp r, GetAll db q [WithDecryption] = Ok pp ∧ r ∈ pp
           ∧ CheckSignature r (Signature r) = Ok true
           ∧ id = IntegrationModelID (Integration_ r) ∧ c' = c).
Proof.
  split.
  - rewrite load_eq.
    destruct (Get db q [WithDecryption]) as [[r|]|e]; simpl.
    + destruct (CheckSignature r (Signature r)) as [[|]|e] eqn:Hsig; simpl.
      * destruct (LoadModel db _ c) as [m|e]; simpl; rewrite !elem_of_cons;
          intros [Hin|[Hin|[Hin|Hin]]]; try done;
          try (by apply elem_of_nil in Hin);
          injection Hin as -> ->; by exists r.
      * rewrite !elem_of_cons.
        intros [Hin|[Hin|[Hin|Hin]]]; try done. by apply elem_of_nil in Hin.
      * rewrite !elem_of_cons.
        intros [Hin|[Hin|Hin]]; try done. by apply elem_of_nil in Hin.
    + rewrite elem_of_cons. intros [Hin|Hin]; [done|by apply elem_of_nil in Hin].
    + rewrite elem_of_cons. intros [Hin|Hin]; [done|by apply elem_of_nil in Hin].
  - rewrite loadAll_eq.
    destruct (GetAll db q [WithDecryption]) as [pp|e]; simpl.
    + rewrite elem_of_cons. intros [Hin|Hin]; [done|].
      destruct (loadAll_loop_resolver_calls _ _ _ _ _ _ _ Hin)
        as (r & Hr & Hrest).
      by exists pp, r.
    + rewrite elem_of_cons. intros [Hin|Hin]; [done|by apply elem_of_nil in Hin].
Qed.

(** X3. A successful loadAll answers position by position: the i-th
    record of the result is made from the i-th fetched row alone.  It is
    the zero value when the row's signature does not verify; otherwise
    it is the row with its resolved model attached, as fetched when clear
    text was asked and after Blur when it was not.  Order is kept and no
    row's data reaches another slot. *)
Theorem loadAll_result_is_positionwise db q (c : bool) pp l (i : nat)
    (r : dbProjectIntegration) :
  GetAll db q [WithDecryption] = Ok pp →
  outcome (loadAll db q c) = Ok l →
  pp !! i = Some r →
  (CheckSignature r (Signature r) = Ok false
   ∧ l !! i = Some zeroIntegration)
  ∨ (CheckSignature r (Signature r) = Ok true
     ∧ ∃ m, LoadModel db (IntegrationModelID (Integration_ r)) c = Ok m
            ∧ l !! i = Some (if c then setModel m (Integration_ r)
                             else Blur (setModel m (Integration_ r)))).
Proof.
  intros Hpp Hok Hr. rewrite loadAll_eq, Hpp in Hok. simpl in Hok.
  assert (0 + length pp ≤ length (replicate (length pp) zeroIntegration))%nat
    as Hlen by (rewrite length_replicate; lia).
  destruct (loadAll_loop_rows _ _ _ 0%nat _ _ Hlen Hok i r Hr)
    as [[Hbad Hslot]|Hgood]; [left|by right].
  split; [done|]. simpl in Hslot. rewrite Hslot.
  apply lookup_replicate_2. by eapply lookup_lt_Some.
Qed.

(** X4. A verification that ends in an error, unlike one that reports an
    invalid signature, is not skipped: when CheckSignature returns an
    error for any fetched row, loadAll returns an error and no records. *)
Theorem loadAll_fails_on_verification_error db q (c : bool) pp
    (r : dbProjectIntegration) (e : error) :
  GetAll db q [WithDecryption] = Ok pp →
  r ∈ pp →
  CheckSignature r (Signature r) = Err e →
  ∃ e', outcome (loadAll db q c) = Err e'.
Proof.
  intros Hpp Hr Hsig.
  destruct (outcome (loadAll db q c)) as [l|e'] eqn:Hout; [|by exists e'].
  apply list_elem_of_lookup in Hr as [i Hi].
  rewrite loadAll_eq, Hpp in Hout. simpl in Hout.
  assert (0 + length pp ≤ length (replicate (length pp) zeroIntegration))%nat
    as Hlen by (rewrite length_replicate; lia).
  destruct (loadAll_loop_rows _ _ _ 0%nat _ _ Hlen Hout i r Hi)
    as [[Hbad _]|[Hgood _]]; congruence.
Qed.

(** The loop stops at the first verified row whose model does not
    resolve: when every row before it is skipped as tampered or has its
    model resolved, the loop returns the resolver's error, and the failed
    call is the last thing it does. *)
Lemma loadAll_loop_first_model_failure db (c : bool) (e : error)
    (before : list dbProjectIntegration) (r : dbProjectIntegration)
    (after : list dbProjectIntegration) :
  (∀ r', r' ∈ before →
         CheckSignature r' (Signature r') = Ok false
         ∨ (CheckSignature r' (Signature r') = Ok true
            ∧ ∃ m, LoadModel db (IntegrationModelID (Integration_ r')) c
                   = Ok m)) →
  CheckSignature r (Signature r) = Ok true →
  LoadModel db (IntegrationModelID (Integration_ r)) c = Err e →
  ∀ (i : nat) l,
    outcome (loadAll_loop db c i (before ++ r :: after) l) = Err e ∧
    last (trace (loadAll_loop db c i (before ++ r :: after) l))
    = Some (EvLoadModel (IntegrationModelID (Integration_ r)) c).
Proof.
  intros Hbefore Hsig Hfail.
  induction before as [|r0 before IH]; intros i l; simpl app;
    rewrite loadAll_loop_cons.
  - by rewrite Hsig, Hfail.
  - assert (∀ r', r' ∈ before →
              CheckSignature r' (Signature r') = Ok false
              ∨ (CheckSignature r' (Signature r') = Ok true
                 ∧ ∃ m, LoadModel db (IntegrationModelID (Integration_ r')) c
                        = Ok m)) as Hrest.
    { intros r' Hr'. apply Hbefore. by right. }
    destruct (Hbefore r0) as [Hbad|[Hgood [m Hm]]]; [left| |].
    + rewrite Hbad. cbv zeta. simpl.
      destruct (IH Hrest (S i) l) as [Hout Hlast].
      split; [done|]. by rewrite !last_cons, Hlast.
    + rewrite Hgood, Hm. cbv zeta. simpl.
      match goal with
      | |- outcome (loadAll_loop _ _ _ _ ?l2) = _ ∧ _ =>
          destruct (IH Hrest (S i) l2) as [Hout Hlast]
      end.
      split; [done|]. by rewrite !last_cons, Hlast.
Qed.

(** C5. A failure to resolve the model of a verified row is the error of
    the enclosing load.  For load, the resolver's error is returned and
    nothing is done after the failed call.  For loadAll, the first
    verified row whose model does not resolve ends the batch with the
    resolver's error, the failed call being the last event, whatever rows
    follow; and a batch in which any verified row has a model that does
    not resolve returns an error and no records, whereas rows that do
    not verify are passed over. *)
Theorem model_resolution_failure_is_fatal db q (c : bool) (e : error) :
  (∀ r,
     Get db q [WithDecryption] = Ok (Some r) →
     CheckSignature r (Signature r) = Ok true →
     LoadModel db (IntegrationModelID (Integration_ r)) c = Err e →
     outcome (load db q c) = Err e ∧
     last (trace (load db q c))
     = Some (EvLoadModel (IntegrationModelID (Integration_ r)) c)) ∧
  (∀ before r after,
     GetAll db q [WithDecryption] = Ok (before ++ r :: after) →
     (∀ r', r' ∈ before →
            CheckSignature r' (Signature r') = Ok false
            ∨ (CheckSignature r' (Signature r') = Ok true
               ∧ ∃ m, LoadModel db (IntegrationModelID (Integration_ r')) c
                      = Ok m)) →
     CheckSignature r (Signature r) = Ok true →
     LoadModel db (IntegrationModelID (Integration_ r)) c = Err e →
     outcome (loadAll db q c) = Err e ∧
     last (trace (loadAll db q c))
     = Some (EvLoadModel (IntegrationModelID (Integration_ r)) c)) ∧
  (∀ pp r,
     GetAll db q [WithDecryption] = Ok pp →
     r ∈ pp →
     CheckSignature r (Signature r) = Ok true →
     LoadModel db (IntegrationModelID (Integration_ r)) c = Err e →
     ∃ e', outcome (loadAll db q c) = Err e').
Proof.
  split; [|split].
  - intros r Hget Hsig Hfail. rewrite load_eq, Hget, Hsig, Hfail. done.
  - intros before r after Hpp Hbefore Hsig Hfail.
    rewrite loadAll_eq, Hpp. cbv zeta. simpl.
    destruct (loadAll_loop_first_model_failure db c e before r after
                Hbefore Hsig Hfail 0%nat
                (replicate (length (before ++ r :: after)) zeroIntegration))
      as [Hout Hlast].
    split; [done|]. by rewrite last_cons, Hlast.
  - intros pp r Hpp Hr Hsig Hfail.
    destruct (outcome (loadAll db q c)) as [l|e'] eqn:Hout; [|by exists e'].
    apply list_elem_of_lookup in Hr as [i Hi].
    rewrite loadAll_eq, Hpp in Hout. simpl in Hout.
    assert (0 + length pp ≤ length (replicate (length pp) zeroIntegration))%nat
      as Hlen by (rewrite length_replicate; lia).
    destruct (loadAll_loop_rows _ _ _ 0%nat _ _ Hlen Hout i r Hi)
      as [[Hbad _]|[_ (m & Hm & _)]]; congruence.
Qed.

End LoadFacts.

(** * The association table *)

Section AssociationFacts.

Context {error : Type} `{!Sdk error}.

Implicit Types (db : SqlExecutor error) (w i : Z) (rows : list (Z * Z)).

Lemma count_absent rows (x : Z * Z) :
  x ∉ rows → length (filter (λ r, r = x) rows) = 0%nat.
Proof.
  induction rows as [|y rows IH]; intros Hx; [done|].
  apply not_elem_of_cons in Hx as [Hne Hx].
  rewrite filter_cons_False by congruence. by apply IH.
Qed.

Lemma count_present rows (x : Z * Z) :
  NoDup rows → x ∈ rows → length (filter (λ r, r = x) rows) = 1%nat.
Proof.
  induction rows as [|y rows IH]; intros Hnd Hx.
  - by apply elem_of_nil in Hx.
  - apply NoDup_cons in Hnd as [Hy Hnd].
    destruct (decide (y = x)) as [->|Hne].
    + rewrite filter_cons_True by done. simpl. by rewrite count_absent.
    + rewrite filter_cons_False by done.
      apply elem_of_cons in Hx as [?|Hx]; [congruence|]. by apply IH.
Qed.

(** Exec on an insert that succeeds: the pair is in the table afterwards,
    and a table without duplicates stays so. *)
Lemma Exec_InsertLink db w i :
  fault db = None →
  ∃ db', Exec db (InsertLink w i) = Ok db'
         ∧ fault db' = None
         ∧ (w, i) ∈ workflow_project_integration db'
         ∧ (NoDup (workflow_project_integration db) →
            NoDup (workflow_project_integration db'))
         ∧ ((w, i) ∈ workflow_project_integration db → db' = db).
Proof.
  intros Hf. unfold Exec. rewrite Hf.
  destruct (decide ((w, i) ∈ workflow_project_integration db)) as [Hin|Hout].
  - exists db. by repeat split.
  - eexists. split; [done|]. simpl. repeat split; [done| | |done].
    + apply elem_of_app. right. by apply list_elem_of_singleton.
    + intros Hnd. apply NoDup_app. repeat split; [done| |apply NoDup_singleton].
      intros x Hx Hx'. apply list_elem_of_singleton in Hx'. by subst.
Qed.

(** No operation of the association manager makes a table without
    duplicate pairs hold one. *)
Lemma Exec_NoDup db (st : statement) db' :
  Exec db st = Ok db' →
  NoDup (workflow_project_integration db) →
  NoDup (workflow_project_integration db').
Proof.
  unfold Exec. destruct (fault db); [done|].
  destruct st as [w i|w i|w]; intros Hex Hnd.
  - destruct (decide ((w, i) ∈ workflow_project_integration db));
      injection Hex as <-; [done|]. simpl.
    apply NoDup_app. repeat split; [done| |apply NoDup_singleton].
    intros x Hx Hx'. apply list_elem_of_singleton in Hx'. by subst.
  - injection Hex as <-. simpl. by apply NoDup_filter.
  - injection Hex as <-. simpl. by apply NoDup_filter.
Qed.

(** C9. On an executor that runs statements, and a table that holds no
    pair twice, two calls of AddOnWorkflow with the same pair both return
    nil, the second leaves the table as the first left it, and the table
    then holds exactly one row with that pair. *)
Theorem AddOnWorkflow_idempotent db w i :
  fault db = None →
  NoDup (workflow_project_integration db) →
  let first := AddOnWorkflow db w i in
  let second := AddOnWorkflow first.2 w i in
  first.1 = None ∧ second.1 = None ∧ second.2 = first.2 ∧
  link_count second.2 w i = 1%nat.
Proof.
  intros Hf Hnd. cbv zeta.
  destruct (Exec_InsertLink db w i Hf) as (db1 & E1 & Hf1 & Hin1 & Hnd1 & _).
  assert (AddOnWorkflow db w i = (None, db1)) as ->.
  { unfold AddOnWorkflow. by rewrite E1. }
  simpl.
  destruct (Exec_InsertLink db1 w i Hf1) as (db2 & E2 & _ & _ & _ & Hsame).
  assert (AddOnWorkflow db1 w i = (None, db2)) as ->.
  { unfold AddOnWorkflow. by rewrite E2. }
  simpl. rewrite (Hsame Hin1). repeat split.
  unfold link_count. apply count_present; auto.
Qed.

(** ** Further properties of the association manager *)

Lemma filter_ne_absent rows (x : Z * Z) :
  x ∉ rows → filter (λ r, r ≠ x) rows = rows.
Proof.
  induction rows as [|y rows IH]; intros Hx; [done|].
  apply not_elem_of_cons in Hx as [Hne Hx].
  rewrite filter_cons_True by congruence. by rewrite IH.
Qed.

Lemma count_filter_other rows (P : Z * Z → Prop) `{!∀ r, Decision (P r)}
    (y : Z * Z) :
  P y →
  length (filter (λ r, r = y) (filter P rows))
  = length (filter (λ r, r = y) rows).
Proof.
  intros Hy. induction rows as [|z rows IH]; [done|].
  destruct (decide (z = y)) as [->|Hne].
  - rewrite (filter_cons_True P) by done.
    rewrite !(filter_cons_True (λ r, r = y)) by done. simpl. by rewrite IH.
  - rewrite (filter_cons_False (λ r, r = y) z rows) by done.
    destruct (decide (P z)).
    + rewrite (filter_cons_True P) by done.
      by rewrite (filter_cons_False (λ r, r = y)).
    + by rewrite (filter_cons_False P).
Qed.

Lemma count_filter_none rows (P : Z * Z → Prop) `{!∀ r, Decision (P r)}
    (y : Z * Z) :
  ¬ P y → length (filter (λ r, r = y) (filter P rows)) = 0%nat.
Proof.
  intros Hy. apply count_absent. rewrite list_elem_of_filter. tauto.
Qed.

(** X5. On an executor that runs statements, RemoveFromWorkflow returns
    nil whether or not the pair was linked, leaves no row with the pair,
    and leaves the number of rows of every other pair as it was; when the
    pair was not linked the table is unchanged. *)
Theorem RemoveFromWorkflow_removes_only_the_pair db w i :
  fault db = None →
  let after := RemoveFromWorkflow db w i in
  after.1 = None ∧
  link_count after.2 w i = 0%nat ∧
  (∀ w' i', (w', i') ≠ (w, i) →
            link_count after.2 w' i' = link_count db w' i') ∧
  ((w, i) ∉ workflow_project_integration db → after.2 = db).
Proof.
  intros Hf. cbv zeta. unfold RemoveFromWorkflow, Exec. rewrite Hf. simpl.
  split; [done|]. unfold link_count. simpl. split; [|split].
  - apply count_filter_none. tauto.
  - intros w' i' Hne. by apply count_filter_other.
  - intros Habs. unfold withLinks. rewrite filter_ne_absent by done.
    destruct db; simpl in *. by subst.
Qed.

(** X6. On an executor that runs statements, DeleteFromWorkflow returns
    nil, leaves no row of the workflow, whatever the integration, and
    leaves the rows of every other workflow as they were. *)
Theorem DeleteFromWorkflow_clears_the_workflow db w :
  fault db = None →
  let after := DeleteFromWorkflow db w in
  after.1 = None ∧
  (∀ i, link_count after.2 w i = 0%nat) ∧
  (∀ w' i', w' ≠ w → link_count after.2 w' i' = link_count db w' i').
Proof.
  intros Hf. cbv zeta. unfold DeleteFromWorkflow, Exec. rewrite Hf. simpl.
  split; [done|]. unfold link_count. simpl. split.
  - intros i. apply (count_filter_none _ (λ r, r.1 ≠ w)). simpl. tauto.
  - intros w' i' Hne. by apply (count_filter_other _ (λ r, r.1 ≠ w)).
Qed.

(** X7. Linking a pair that was not linked and then removing it gives
    back the executor as it was, rows and order included. *)
Theorem AddOnWorkflow_then_RemoveFromWorkflow db w i :
  fault db = None →
  (w, i) ∉ workflow_project_integration db →
  (RemoveFromWorkflow (AddOnWorkflow db w i).2 w i).2 = db.
Proof.
  intros Hf Habs. unfold AddOnWorkflow, Exec. rewrite Hf.
  rewrite decide_False by done. simpl.
  unfold RemoveFromWorkflow, Exec. simpl. rewrite Hf. simpl.
  unfold withLinks. simpl. rewrite filter_app, filter_ne_absent by done.
  rewrite filter_cons_False by (intros Hne; by apply Hne).
  rewrite filter_nil, app_nil_r. destruct db; simpl in *. by subst.
Qed.

(** X8. AddOnWorkflow on an executor that runs statements returns nil,
    leaves the pair linked, and changes the number of rows of no other
    pair; every row that was in the table is still there. *)
Theorem AddOnWorkflow_touches_only_its_pair db w i :
  fault db = None →
  let after := AddOnWorkflow db w i in
  after.1 = None ∧
  (w, i) ∈ workflow_project_integration after.2 ∧
  (∀ w' i', (w', i') ≠ (w, i) →
            link_count after.2 w' i' = link_count db w' i') ∧
  (∀ x, x ∈ workflow_project_integration db →
        x ∈ workflow_project_integration after.2).
Proof.
  intros Hf. cbv zeta. unfold AddOnWorkflow, Exec. rewrite Hf.
  destruct (decide ((w, i) ∈ workflow_project_integration db)) as [Hin|Hout];
    simpl.
  - by repeat split.
  - split; [done|]. split; [|split].
    + apply elem_of_app. right. by apply list_elem_of_singleton.
    + intros w' i' Hne. unfold link_count. simpl. rewrite filter_app.
      rewrite (filter_cons_False _ (w, i)) by congruence.
      by rewrite filter_nil, app_nil_r.
    + intros x Hx. apply elem_of_app. by left.
Qed.

(** X9. No pair comes to be linked twice: each of the three operations,
    whether the executor runs the statement or answers with an error,
    takes a table without duplicate pairs to a table without duplicate
    pairs; and an operation that returns an error leaves the executor as
    it was. *)
Theorem association_operations_keep_pairs_unique db w i :
  NoDup (workflow_project_integration db) →
  (NoDup (workflow_project_integration (AddOnWorkflow db w i).2)
   ∧ NoDup (workflow_project_integration (RemoveFromWorkflow db w i).2)
   ∧ NoDup (workflow_project_integration (DeleteFromWorkflow db w).2))
  ∧ (∀ e, (AddOnWorkflow db w i).1 = Some e → (AddOnWorkflow db w i).2 = db)
  ∧ (∀ e, (RemoveFromWorkflow db w i).1 = Some e →
          (RemoveFromWorkflow db w i).2 = db)
  ∧ (∀ e, (DeleteFromWorkflow db w).1 = Some e →
          (DeleteFromWorkflow db w).2 = db).
Proof.
  intros Hnd. unfold AddOnWorkflow, RemoveFromWorkflow, DeleteFromWorkflow.
  destruct (Exec db (InsertLink w i)) as [db1|e1] eqn:E1;
    destruct (Exec db (DeleteLink w i)) as [db2|e2] eqn:E2;
    destruct (Exec db (DeleteLinksOfWorkflow w)) as [db3|e3] eqn:E3;
    simpl; (split; [|by repeat split]);
    repeat split; try done; eauto using Exec_NoDup.
Qed.

End AssociationFacts.

(** * The key-install handler *)

Import KeyHandler.

Section HandlerFacts.

Context `{!KeyHandler.Sdk} {W : Type} `{!Runtime W}.

Implicit Types (wk : W) (cw : CurrentWorker W) (r : Request)
  (key : Variable_) (secrets : list Variable_) (filename : string)
  (mapBody : gmap string string).

(** ** keyInstall, case by case *)

Lemma keyInstall_empty wk key :
  keyInstall wk "" key =
  ((InstallKey key wk).1, (InstallKey key wk).2, [CallInstallKey key]).
Proof.
  unfold keyInstall. rewrite decide_True by done.
  by destruct (InstallKey key wk).
Qed.

Lemma keyInstall_relative wk filename key :
  filename ≠ "" → PathIsAbs filename = false →
  keyInstall wk filename key =
  (Err (OtherError "unsupported relative path"), wk, []).
Proof.
  intros Hne Hrel. unfold keyInstall.
  rewrite decide_False by done. by rewrite Hrel.
Qed.

Lemma keyInstall_absolute wk filename key :
  filename ≠ "" → PathIsAbs filename = true →
  keyInstall wk filename key =
  ((InstallKeyTo key filename wk).1, (InstallKeyTo key filename wk).2,
   [CallInstallKeyTo key filename]).
Proof.
  intros Hne Habs. unfold keyInstall.
  rewrite decide_False by done. rewrite Habs. simpl.
  by destruct (InstallKeyTo key filename wk).
Qed.

(** ** The lookup of the key *)


Lemma lookupKey_Some secrets (keyName : string) key :
  lookupKey secrets keyName = Some key →
  key ∈ secrets ∧ Name key = "cds.key." +:+ keyName +:+ ".priv".
Proof.
  unfold lookupKey, privName. intros Hfind.
  apply find_some in Hfind as [Hin Hname].
  split; [by apply list_elem_of_In|]. by apply bool_decide_eq_true in Hname.
Qed.

(** ** The handler on a body that cannot be read or decoded *)

Lemma keyInstallHandler_malformed cw r (response : Response) :
  parseBody r = Err response →
  keyInstallHandler cw r = (response, runtime cw, []).
Proof. intros Hparse. unfold keyInstallHandler. by rewrite Hparse. Qed.

Lemma parseBody_malformed_status r (body : string) (response : Response) :
  Body r = Ok body → parseBody r = Err response →
  code response = Status ErrWrongRequest.
Proof.
  unfold parseBody. intros ->.
  destruct (0 <? String.length body)%nat; [|done].
  destruct (Unmarshal body); [done|]. by intros [= <-].
Qed.

(** ** The handler once the key is found *)

Lemma keyInstallHandler_found cw r mapBody secrets key :
  parseBody r = Ok mapBody →
  currentJob_secrets cw = Some secrets →
  lookupKey secrets (keyName_of r) = Some key →
  keyInstallHandler cw r =
  let x := keyInstall (runtime cw) (default "" (mapBody !! "file")) key in
  (match value_of x with
   | Err (SdkErrorPtr sdkerr) => writeJSON (ErrorBody sdkerr) (Status sdkerr)
   | Err (OtherError msg) =>
       writeJSON
         (ErrorBody {| Message := msg; Status := Status ErrUnknownError |})
         (Status ErrUnknownError)
   | Ok response => writeJSON (KeyBody response) 200
   end, world_of x, calls_of x).
Proof.
  intros Hparse Hsec Hkey. unfold keyInstallHandler.
  rewrite Hparse, Hsec, Hkey. cbv zeta.
  destruct (keyInstall _ _ key) as [[[resp|[sdkerr|msg]] w'] calls]; done.
Qed.

(** ** The statements of the specification *)


(** C7, as the code has it.  For a request whose body was decoded, whose
    job holds the requested key, and whose destination is a non-empty
    path that is not absolute: the handler answers with the message
    "unsupported relative path" under the status of sdk.ErrUnknownError,
    the generic status that any install error other than a pointer to
    sdk.Error receives, and the install capability is not called. *)
Theorem relative_path_gets_unknown_error_status cw r mapBody secrets key
    filename :
  parseBody r = Ok mapBody →
  currentJob_secrets cw = Some secrets →
  lookupKey secrets (keyName_of r) = Some key →
  mapBody !! "file" = Some filename →
  filename ≠ "" →
  PathIsAbs filename = false →
  keyInstallHandler cw r =
  ({| body := ErrorBody {| Message := "unsupported relative path";
                           Status := Status ErrUnknownError |};
      code := Status ErrUnknownError |}, runtime cw, []).
Proof.
  intros Hparse Hsec Hkey Hfile Hne Hrel.
  rewrite (keyInstallHandler_found _ _ _ _ _ Hparse Hsec Hkey).
  rewrite Hfile. simpl. by rewrite keyInstall_relative.
Qed.

(** C8. keyInstall rejects a non-empty path that is not absolute without
    calling the install capability and without touching the runtime's
    state; for a non-empty absolute path it makes exactly one call,
    InstallKeyTo with the key and the path it was given, and returns
    what that call returns.  The handler passes the decoded destination
    on unchanged, so the same holds of a whole request. *)
Theorem keyInstall_destination wk filename key :
  filename ≠ "" →
  (PathIsAbs filename = false →
   keyInstall wk filename key =
   (Err (OtherError "unsupported relative path"), wk, []) ∧
   ∀ cw r mapBody,
     parseBody r = Ok mapBody → mapBody !! "file" = Some filename →
     calls_of (keyInstallHandler cw r) = [] ∧
     world_of (keyInstallHandler cw r) = runtime cw) ∧
  (PathIsAbs filename = true →
   calls_of (keyInstall wk filename key) = [CallInstallKeyTo key filename] ∧
   value_of (keyInstall wk filename key) = (InstallKeyTo key filename wk).1 ∧
   world_of (keyInstall wk filename key) = (InstallKeyTo key filename wk).2 ∧
   ∀ cw r mapBody secrets,
     parseBody r = Ok mapBody → mapBody !! "file" = Some filename →
     currentJob_secrets cw = Some secrets →
     lookupKey secrets (keyName_of r) = Some key →
     calls_of (keyInstallHandler cw r) = [CallInstallKeyTo key filename]).
Proof.
  intros Hne. split.
  - intros Hrel. split; [by apply keyInstall_relative|].
    intros cw r mapBody Hparse Hfile.
    destruct (currentJob_secrets cw) as [secrets|] eqn:Hsec.
    + destruct (lookupKey secrets (keyName_of r)) as [key'|] eqn:Hkey.
      * rewrite (keyInstallHandler_found _ _ _ _ _ Hparse Hsec Hkey).
        rewrite Hfile. simpl. by rewrite keyInstall_relative.
      * unfold keyInstallHandler. by rewrite Hparse, Hsec, Hkey.
    + unfold keyInstallHandler. by rewrite Hparse, Hsec.
  - intros Habs. rewrite keyInstall_absolute by done.
    do 3 (split; [done|]).
    intros cw r mapBody secrets Hparse Hfile Hsec Hkey.
    rewrite (keyInstallHandler_found _ _ _ _ _ Hparse Hsec Hkey).
    rewrite Hfile. simpl. by rewrite keyInstall_absolute.
Qed.

(** C10. Given the empty string as destination, keyInstall makes exactly
    one call, the default InstallKey, and returns what it returns,
    whatever PathIsAbs would answer on the empty string; and the handler
    hands keyInstall the empty string both when the body has no field
    "file" (or is empty) and when the field holds the empty string. *)
Theorem empty_destination_installs_to_default wk key :
  calls_of (keyInstall wk "" key) = [CallInstallKey key] ∧
  value_of (keyInstall wk "" key) = (InstallKey key wk).1 ∧
  world_of (keyInstall wk "" key) = (InstallKey key wk).2 ∧
  ∀ cw r mapBody secrets,
    parseBody r = Ok mapBody →
    mapBody !! "file" = None ∨ mapBody !! "file" = Some "" →
    currentJob_secrets cw = Some secrets →
    lookupKey secrets (keyName_of r) = Some key →
    calls_of (keyInstallHandler cw r) = [CallInstallKey key] ∧
    world_of (keyInstallHandler cw r) = (InstallKey key (runtime cw)).2.
Proof.
  rewrite keyInstall_empty. do 3 (split; [done|]).
  intros cw r mapBody secrets Hparse Hfile Hsec Hkey.
  rewrite (keyInstallHandler_found _ _ _ _ _ Hparse Hsec Hkey).
  destruct Hfile as [-> | ->]; simpl; by rewrite keyInstall_empty.
Qed.

(** ** Further properties of the handler *)

(** keyInstall does one of three things. *)
Lemma keyInstall_cases wk filename key :
  (filename = ""
   ∧ keyInstall wk filename key
     = ((InstallKey key wk).1, (InstallKey key wk).2, [CallInstallKey key]))
  ∨ (filename ≠ "" ∧ PathIsAbs filename = false
     ∧ keyInstall wk filename key
       = (Err (OtherError "unsupported relative path"), wk, []))
  ∨ (filename ≠ "" ∧ PathIsAbs filename = true
     ∧ keyInstall wk filename key
       = ((InstallKeyTo key filename wk).1, (InstallKeyTo key filename wk).2,
          [CallInstallKeyTo key filename])).
Proof.
  destruct (decide (filename = "")) as [->|Hne].
  - left. split; [done|]. apply keyInstall_empty.
  - right. destruct (PathIsAbs filename) eqn:Habs.
    + right. do 2 (split; [done|]). by apply keyInstall_absolute.
    + left. do 2 (split; [done|]). by apply keyInstall_relative.
Qed.

(** The handler either answers with an error before it reaches
    keyInstall, leaving the runtime alone, or it has decoded the body and
    found the key. *)
Lemma keyInstallHandler_cases cw r :
  (∃ e, keyInstallHandler cw r
        = (writeJSON (ErrorBody e) (Status e), runtime cw, []))
  ∨ (∃ mapBody secrets key,
       parseBody r = Ok mapBody
       ∧ currentJob_secrets cw = Some secrets
       ∧ lookupKey secrets (keyName_of r) = Some key).
Proof.
  destruct (parseBody r) as [mapBody|response] eqn:Hparse.
  - destruct (currentJob_secrets cw) as [secrets|] eqn:Hsec.
    + destruct (lookupKey secrets (keyName_of r)) as [key|] eqn:Hkey.
      * right. by exists mapBody, secrets, key.
      * left. eexists. unfold keyInstallHandler.
        by rewrite Hparse, Hsec, Hkey.
    + left. eexists. unfold keyInstallHandler. by rewrite Hparse, Hsec.
  - left. rewrite (keyInstallHandler_malformed _ _ _ Hparse).
    unfold parseBody in Hparse. destruct (Body r) as [body|err].
    + destruct (0 <? String.length body)%nat; [|done].
      destruct (Unmarshal body) as [m|msg]; [done|].
      injection Hparse as <-.
      by exists {| Message := msg; Status := Status ErrWrongRequest |}.
    + injection Hparse as <-. by exists (NewError ErrWrongRequest err).
Qed.


(** X11. A request makes at most one call to the install capability, and
    when it makes none the runtime is left as it was. *)
Theorem at_most_one_install_call cw r :
  (length (calls_of (keyInstallHandler cw r)) ≤ 1)%nat ∧
  (calls_of (keyInstallHandler cw r) = [] →
   world_of (keyInstallHandler cw r) = runtime cw).
Proof.
  destruct (keyInstallHandler_cases cw r)
    as [[e ->]|(mapBody & secrets & key & Hparse & Hsec & Hkey)].
  - split; [simpl; lia|done].
  - rewrite (keyInstallHandler_found _ _ _ _ _ Hparse Hsec Hkey).
    destruct (keyInstall_cases (runtime cw) (default "" (mapBody !! "file"))
                key) as [[_ ->]|[(_ & _ & ->)|(_ & _ & ->)]];
      simpl; (split; [lia|done]).
Qed.

(** X12. The handler installs nothing but a secret of the current job
    that bears the name cds.key.<keyName>.priv, for the key name of the
    route: every call it makes to the install capability is for such a
    secret. *)
Theorem install_uses_only_the_named_job_secret cw r (c : call) :
  c ∈ calls_of (keyInstallHandler cw r) →
  ∃ secrets key,
    currentJob_secrets cw = Some secrets
    ∧ key ∈ secrets
    ∧ Name key = "cds.key." +:+ keyName_of r +:+ ".priv"
    ∧ (c = CallInstallKey key ∨ ∃ filename, c = CallInstallKeyTo key filename).
Proof.
  destruct (keyInstallHandler_cases cw r)
    as [[e ->]|(mapBody & secrets & key & Hparse & Hsec & Hkey)].
  - simpl. intros Hin. by apply elem_of_nil in Hin.
  - rewrite (keyInstallHandler_found _ _ _ _ _ Hparse Hsec Hkey).
    apply lookupKey_Some in Hkey as [Hin Hname].
    destruct (keyInstall_cases (runtime cw) (default "" (mapBody !! "file"))
                key) as [[_ ->]|[(_ & _ & ->)|(_ & _ & ->)]]; simpl.
    + intros ->%list_elem_of_singleton. exists secrets, key.
      do 3 (split; [done|]). by left.
    + intros Hc. by apply elem_of_nil in Hc.
    + intros ->%list_elem_of_singleton. exists secrets, key.
      do 3 (split; [done|]). right. by eexists.
Qed.

(** X13. The handler writes to a path only when the decoded body names
    it: every call of InstallKeyTo is made with the value of the field
    file, which is then not empty and an absolute path. *)
Theorem InstallKeyTo_only_with_the_supplied_absolute_path cw r key filename :
  CallInstallKeyTo key filename ∈ calls_of (keyInstallHandler cw r) →
  ∃ mapBody,
    parseBody r = Ok mapBody
    ∧ mapBody !! "file" = Some filename
    ∧ filename ≠ ""
    ∧ PathIsAbs filename = true.
Proof.
  destruct (keyInstallHandler_cases cw r)
    as [[e ->]|(mapBody & secrets & key' & Hparse & Hsec & Hkey)].
  - simpl. intros Hin. by apply elem_of_nil in Hin.
  - rewrite (keyInstallHandler_found _ _ _ _ _ Hparse Hsec Hkey).
    destruct (keyInstall_cases (runtime cw) (default "" (mapBody !! "file"))
                key') as [[_ ->]|[(_ & _ & ->)|(Hne & Habs & ->)]]; simpl.
    + intros Hc%list_elem_of_singleton. discriminate Hc.
    + intros Hc. by apply elem_of_nil in Hc.
    + intros Hc%list_elem_of_singleton. injection Hc as Hk Hf. subst.
      exists mapBody. split; [done|].
      destruct (mapBody !! "file") as [f|] eqn:Hfile; simpl in *; done.
Qed.

(** The lookup loop stops at the first secret that bears the name. *)
Lemma lookupKey_first (before after : list Variable_) (keyName : string) key :
  (∀ k, k ∈ before → Name k ≠ "cds.key." +:+ keyName +:+ ".priv") →
  Name key = "cds.key." +:+ keyName +:+ ".priv" →
  lookupKey (before ++ key :: after) keyName = Some key.
Proof.
  unfold lookupKey, privName. intros Hno Hname.
  induction before as [|k before IH]; simpl.
  - by rewrite bool_decide_eq_true_2.
  - rewrite bool_decide_eq_false_2 by (apply Hno; left).
    apply IH. intros k' Hk'. apply Hno. by right.
Qed.

(** X14. When several secrets of the job bear the name of the requested
    key, the first one in the slice is the one installed: the handler
    hands that secret, and the decoded destination, to keyInstall, its
    answer and the state of the runtime are those of that install, and
    every call it makes to the install capability is for that secret,
    whatever secrets follow it. *)
Theorem first_matching_secret_is_installed cw r mapBody
    (before after : list Variable_) key :
  parseBody r = Ok mapBody →
  currentJob_secrets cw = Some (before ++ key :: after) →
  (∀ k, k ∈ before → Name k ≠ "cds.key." +:+ keyName_of r +:+ ".priv") →
  Name key = "cds.key." +:+ keyName_of r +:+ ".priv" →
  let install :=
    keyInstall (runtime cw) (default "" (mapBody !! "file")) key in
  calls_of (keyInstallHandler cw r) = calls_of install ∧
  world_of (keyInstallHandler cw r) = world_of install ∧
  response_of (keyInstallHandler cw r)
  = match value_of install with
    | Ok response => {| body := KeyBody response; code := 200 |}
    | Err (SdkErrorPtr sdkerr) =>
        {| body := ErrorBody sdkerr; code := Status sdkerr |}
    | Err (OtherError msg) =>
        {| body := ErrorBody {| Message := msg;
                                Status := Status ErrUnknownError |};
           code := Status ErrUnknownError |}
    end ∧
  (∀ c, c ∈ calls_of (keyInstallHandler cw r) →
        c = CallInstallKey key ∨ ∃ filename, c = CallInstallKeyTo key filename) ∧
  (default "" (mapBody !! "file") = "" →
   calls_of (keyInstallHandler cw r) = [CallInstallKey key]).
Proof.
  intros Hparse Hsec Hno Hname. cbv zeta.
  pose proof (lookupKey_first before after (keyName_of r) key Hno Hname)
    as Hkey.
  rewrite (keyInstallHandler_found _ _ _ _ _ Hparse Hsec Hkey). cbv zeta.
  do 3 (split; [done|]). split.
  - intros c.
    destruct (keyInstall_cases (runtime cw) (default "" (mapBody !! "file"))
                key) as [[_ ->]|[(_ & _ & ->)|(_ & _ & ->)]];
      unfold calls_of; simpl.
    + intros ->%list_elem_of_singleton. by left.
    + intros Hc. by apply elem_of_nil in Hc.
    + intros ->%list_elem_of_singleton. right. by eexists.
  - intros ->. by rewrite keyInstall_empty.
Qed.

(** X15. A key response is sent only for an install that succeeded: when
    the body of the response is a key response, its status is 200, the
    handler made exactly one call to the install capability, for a secret
    of the job, and the response is what that call returned. *)
Theorem key_response_only_after_successful_install cw r
    (response : KeyResponse) :
  body (response_of (keyInstallHandler cw r)) = KeyBody response →
  code (response_of (keyInstallHandler cw r)) = 200 ∧
  ∃ secrets key,
    currentJob_secrets cw = Some secrets ∧ key ∈ secrets ∧
    ((calls_of (keyInstallHandler cw r) = [CallInstallKey key]
      ∧ (InstallKey key (runtime cw)).1 = Ok response)
     ∨ (∃ filename,
          calls_of (keyInstallHandler cw r) = [CallInstallKeyTo key filename]
          ∧ (InstallKeyTo key filename (runtime cw)).1 = Ok response)).
Proof.
  destruct (keyInstallHandler_cases cw r)
    as [[e ->]|(mapBody & secrets & key & Hparse & Hsec & Hkey)];
    [intros Hb; discriminate Hb|].
  rewrite (keyInstallHandler_found _ _ _ _ _ Hparse Hsec Hkey).
  apply lookupKey_Some in Hkey as [Hin Hname].
  destruct (keyInstall_cases (runtime cw) (default "" (mapBody !! "file"))
              key) as [[_ ->]|[(_ & _ & ->)|(_ & _ & ->)]];
    unfold response_of, calls_of, value_of, world_of; simpl;
    [| intros Hb; discriminate Hb |].
  - destruct (InstallKey key (runtime cw)) as [[resp|[e|msg]] w'] eqn:Hcall;
      simpl; intros Hb; try discriminate Hb.
    injection Hb as <-. split; [done|]. exists secrets, key.
    do 2 (split; [done|]). left. by rewrite Hcall.
  - destruct (InstallKeyTo key _ (runtime cw)) as [[resp|[e|msg]] w']
      eqn:Hcall; simpl; intros Hb; try discriminate Hb.
    injection Hb as <-. split; [done|]. exists secrets, key.
    do 2 (split; [done|]). right. eexists. split; [done|]. by rewrite Hcall.
Qed.

(** X16. When the install capability fails, the handler reports the
    failure once and under the status the error calls for: an error that
    is a pointer to sdk.Error is sent as it is under its own status, any
    other error is sent by its text under the status of
    sdk.ErrUnknownError; the runtime is left as the failed call left it. *)
Theorem install_failure_is_reported cw r mapBody secrets key (err : goerror)
    (wk' : W) :
  parseBody r = Ok mapBody →
  currentJob_secrets cw = Some secrets →
  lookupKey secrets (keyName_of r) = Some key →
  (default "" (mapBody !! "file") = ""
   ∧ InstallKey key (runtime cw) = (Err err, wk'))
  ∨ (default "" (mapBody !! "file") ≠ ""
     ∧ PathIsAbs (default "" (mapBody !! "file")) = true
     ∧ InstallKeyTo key (default "" (mapBody !! "file")) (runtime cw)
       = (Err err, wk')) →
  world_of (keyInstallHandler cw r) = wk' ∧
  response_of (keyInstallHandler cw r)
  = match err with
    | SdkErrorPtr sdkerr =>
        {| body := ErrorBody sdkerr; code := Status sdkerr |}
    | OtherError msg =>
        {| body := ErrorBody {| Message := msg;
                                Status := Status ErrUnknownError |};
           code := Status ErrUnknownError |}
    end.
Proof.
  intros Hparse Hsec Hkey Hinstall.
  rewrite (keyInstallHandler_found _ _ _ _ _ Hparse Hsec Hkey).
  destruct Hinstall as [[Hf Hcall]|(Hf & Habs & Hcall)].
  - rewrite Hf, keyInstall_empty, Hcall. by destruct err.
  - rewrite keyInstall_absolute, Hcall by done. by destruct err.
Qed.

End HandlerFacts.

(** * The statements at concrete inputs *)

Import Fixture.

(** ** Loads *)

(** C1, on the code.  Project 10 has two rows; the first verifies, the
    second does not.  loadAll returns no error and a slice of two
    records: the first row redacted, and in the place of the second the
    zero value of sdk.ProjectIntegration, left there by the slice having
    been made with the length of the fetched rows. *)
Theorem loadAll_keeps_slot_of_tampered_row :
  GetAll db0 (byProjectIDQuery 10) [WithDecryption]
  = Ok [ {| Integration_ := github; Signature := good_signature |};
         {| Integration_ := kafka; Signature := [x00] |} ] ∧
  CheckSignature {| Integration_ := github; Signature := good_signature |}
    good_signature = Ok true ∧
  CheckSignature {| Integration_ := kafka; Signature := [x00] |} [x00]
  = Ok false ∧
  outcome (loadAll db0 (byProjectIDQuery 10) false)
  = Ok [github_redacted; zeroIntegration] ∧
  length [github_redacted; zeroIntegration] = 2%nat.
Proof. repeat split; vm_compute; reflexivity. Qed.

(** Row 2 is found and does not verify; no row has id 8.  Both loads end
    in the same error. *)
Lemma single_load_tampered_is_NotFound_witness :
  Get db0 (byIDQuery 2) [WithDecryption]
  = Ok (Some {| Integration_ := kafka; Signature := [x00] |}) ∧
  CheckSignature {| Integration_ := kafka; Signature := [x00] |} [x00]
  = Ok false ∧
  Get db0 (byIDQuery 8) [WithDecryption] = Ok None ∧
  outcome (load db0 (byIDQuery 2) false) = Err (Stack NotFound) ∧
  outcome (LoadProjectIntegrationByID db0 2 false)
  = Err (Stack (Stack NotFound)) ∧
  outcome (load db0 (byIDQuery 8) false) = Err (Stack NotFound) ∧
  outcome (LoadProjectIntegrationByID db0 8 false)
  = Err (Stack (Stack NotFound)).
Proof.
  assert (Get db0 (byIDQuery 2) [WithDecryption]
          = Ok (Some {| Integration_ := kafka; Signature := [x00] |}))
    as Hget by (vm_compute; reflexivity).
  assert (CheckSignature {| Integration_ := kafka; Signature := [x00] |} [x00]
          = Ok false) as Hsig by (vm_compute; reflexivity).
  assert (Get db0 (byIDQuery 8) [WithDecryption] = Ok None)
    as Hnone by (vm_compute; reflexivity).
  do 3 (split; [assumption|]).
  destruct (single_load_tampered_is_NotFound db0 (byIDQuery 2) false)
    as [Ht1 Ht2].
  { right. eexists. split; [exact Hget | exact Hsig]. }
  destruct (single_load_tampered_is_NotFound db0 (byIDQuery 8) false)
    as [Hm1 Hm2].
  { left. exact Hnone. }
  split; [exact Ht1|]. split; [exact Ht2|]. split; [exact Hm1|exact Hm2].
Defined.

(** C3, as stated, fails: the load of row 1 with clearPassword=false
    asks the store to decrypt. *)
Lemma load_without_clear_text_requests_decryption :
  ¬ (∀ ev, ev ∈ trace (load db0 (byIDQuery 1) false) →
           requests_decryption ev = false).
Proof.
  intros Hnone.
  specialize (Hnone (EvGet (byIDQuery 1) [WithDecryption])).
  assert (EvGet (byIDQuery 1) [WithDecryption]
          ∈ trace (load db0 (byIDQuery 1) false)) as Hin
    by (vm_compute; repeat constructor).
  apply Hnone in Hin. discriminate Hin.
Qed.

(** Row 1 loaded alone, and project 10 loaded as a batch, without clear
    text. *)
Lemma load_without_clear_text_is_redacted_witness :
  outcome (load db0 (byIDQuery 1) false) = Ok github_redacted ∧
  outcome (loadAll db0 (byProjectIDQuery 10) false)
  = Ok [github_redacted; zeroIntegration] ∧
  redacted github_redacted ∧
  redacted zeroIntegration.
Proof.
  assert (outcome (load db0 (byIDQuery 1) false) = Ok github_redacted)
    as Hload by (vm_compute; reflexivity).
  assert (outcome (loadAll db0 (byProjectIDQuery 10) false)
          = Ok [github_redacted; zeroIntegration])
    as Hall by (vm_compute; reflexivity).
  do 2 (split; [assumption|]). split.
  - exact (proj1 (load_without_clear_text_is_redacted
                    db0 (byIDQuery 1) github_redacted) Hload).
  - apply (proj2 (load_without_clear_text_is_redacted
                    db0 (byProjectIDQuery 10) zeroIntegration) _ Hall).
    right. left.
Defined.

(** Row 3 alone, and the batch of project 10 once it holds a third row,
    verified, whose model 99 does not resolve, before a fourth row. *)
Lemma model_resolution_failure_is_fatal_witness :
  Get db0 (byIDQuery 3) [WithDecryption]
  = Ok (Some {| Integration_ := orphan; Signature := good_signature |}) ∧
  GetAll db_stray (byProjectIDQuery 10) [WithDecryption]
  = Ok ([ {| Integration_ := github; Signature := good_signature |};
          {| Integration_ := kafka; Signature := [x00] |} ]
        ++ {| Integration_ := stray; Signature := good_signature |}
        :: [ {| Integration_ := github; Signature := good_signature |} ]) ∧
  LoadModel db_stray 99 false = Err (NoSuchModel 99) ∧
  outcome (load db0 (byIDQuery 3) false) = Err (NoSuchModel 99) ∧
  outcome (loadAll db_stray (byProjectIDQuery 10) false)
  = Err (NoSuchModel 99) ∧
  last (trace (loadAll db_stray (byProjectIDQuery 10) false))
  = Some (EvLoadModel 99 false) ∧
  ∃ e', outcome (loadAll db_stray (byProjectIDQuery 10) false) = Err e'.
Proof.
  assert (Get db0 (byIDQuery 3) [WithDecryption]
          = Ok (Some {| Integration_ := orphan;
                        Signature := good_signature |}))
    as Hget by (vm_compute; reflexivity).
  assert (GetAll db_stray (byProjectIDQuery 10) [WithDecryption]
          = Ok ([ {| Integration_ := github; Signature := good_signature |};
                  {| Integration_ := kafka; Signature := [x00] |} ]
                ++ {| Integration_ := stray; Signature := good_signature |}
                :: [ {| Integration_ := github;
                        Signature := good_signature |} ]))
    as Hpp by (vm_compute; reflexivity).
  assert (LoadModel db_stray 99 false = Err (NoSuchModel 99))
    as Hfail by (vm_compute; reflexivity).
  do 3 (split; [assumption|]).
  destruct (model_resolution_failure_is_fatal
              db0 (byIDQuery 3) false (NoSuchModel 99)) as (Hsingle & _ & _).
  destruct (model_resolution_failure_is_fatal
              db_stray (byProjectIDQuery 10) false (NoSuchModel 99))
    as (_ & Hfirst & Hany).
  destruct (Hsingle _ Hget) as [Hone _]; [vm_compute; reflexivity..|].
  destruct (Hfirst _ _ _ Hpp) as [Hout Hlast];
    [|vm_compute; reflexivity..|].
  { intros r' Hr'. apply elem_of_cons in Hr' as [->|Hr'].
    - right. split; [vm_compute; reflexivity|].
      exists model7. vm_compute; reflexivity.
    - apply list_elem_of_singleton in Hr' as ->.
      left. vm_compute; reflexivity. }
  split; [exact Hone|]. split; [exact Hout|]. split; [exact Hlast|].
  apply (Hany _ {| Integration_ := stray; Signature := good_signature |} Hpp);
    [|vm_compute; reflexivity..].
  do 2 right. left.
Defined.

(** ** Associations *)

(** Workflow 5 linked twice to integration 2. *)
Lemma AddOnWorkflow_idempotent_witness :
  fault links0 = None ∧
  NoDup (workflow_project_integration links0) ∧
  (AddOnWorkflow (AddOnWorkflow links0 5 2).2 5 2).1 = None ∧
  link_count (AddOnWorkflow (AddOnWorkflow links0 5 2).2 5 2).2 5 2 = 1%nat.
Proof.
  assert (NoDup (workflow_project_integration links0)) as Hnd
    by apply NoDup_singleton.
  split; [reflexivity|]. split; [exact Hnd|].
  pose proof (AddOnWorkflow_idempotent links0 5 2 eq_refl Hnd) as H.
  cbv zeta in H. destruct H as (_ & H2 & _ & H4). split; [exact H2|exact H4].
Defined.

(** ** Key provisioning *)



(** C7, as stated, fails: with the key loaded and the destination
    relative/path, the response carries the status of
    sdk.ErrUnknownError, 500 on this worker, and not 400. *)
Lemma relative_path_is_not_answered_400 :
  PathIsAbs "relative/path" = false ∧
  response_of (keyInstallHandler (worker (Some [deploy_key]))
                 (request "deploy" (file_body "relative/path")))
  = {| body := ErrorBody {| Message := "unsupported relative path";
                            Status := 500 |};
       code := 500 |} ∧
  code (response_of (keyInstallHandler (worker (Some [deploy_key]))
                       (request "deploy" (file_body "relative/path"))))
  ≠ StatusBadRequest.
Proof. split; [reflexivity|]. split; [vm_compute; reflexivity|]. by vm_compute. Qed.

(** The key deploy sent to relative/path. *)
Lemma relative_path_gets_unknown_error_status_witness :
  parseBody (request "deploy" (file_body "relative/path"))
  = Ok {["file" := "relative/path"]} ∧
  lookupKey [deploy_key] "deploy" = Some deploy_key ∧
  PathIsAbs "relative/path" = false ∧
  keyInstallHandler (worker (Some [deploy_key]))
    (request "deploy" (file_body "relative/path"))
  = ({| body := ErrorBody {| Message := "unsupported relative path";
                             Status := Status ErrUnknownError |};
        code := Status ErrUnknownError |}, [], []).
Proof.
  assert (parseBody (request "deploy" (file_body "relative/path"))
          = Ok {["file" := "relative/path"]}) as Hp by (vm_compute; reflexivity).
  assert (lookupKey [deploy_key] "deploy" = Some deploy_key)
    as Hk by (vm_compute; reflexivity).
  do 2 (split; [assumption|]). split; [reflexivity|].
  apply (relative_path_gets_unknown_error_status
           (worker (Some [deploy_key])) _ _ [deploy_key] deploy_key
           "relative/path" Hp eq_refl Hk).
  - vm_compute; reflexivity.
  - discriminate.
  - reflexivity.
Defined.

(** The key deploy sent to relative/path and to /abs/path. *)
Lemma keyInstall_destination_witness :
  keyInstall ([] : FS) "relative/path" deploy_key
  = (Err (OtherError "unsupported relative path"), [], []) ∧
  calls_of (keyInstall ([] : FS) "/abs/path" deploy_key)
  = [CallInstallKeyTo deploy_key "/abs/path"] ∧
  calls_of (keyInstallHandler (worker (Some [deploy_key]))
              (request "deploy" (file_body "relative/path"))) = [] ∧
  calls_of (keyInstallHandler (worker (Some [deploy_key]))
              (request "deploy" (file_body "/abs/path")))
  = [CallInstallKeyTo deploy_key "/abs/path"].
Proof.
  assert ("relative/path" ≠ "") as Hr by discriminate.
  assert ("/abs/path" ≠ "") as Ha by discriminate.
  destruct (keyInstall_destination ([] : FS) "relative/path" deploy_key Hr)
    as [Hrel _].
  destruct (Hrel eq_refl) as [Hrel1 Hrel2].
  destruct (keyInstall_destination ([] : FS) "/abs/path" deploy_key Ha)
    as [_ Habs].
  destruct (Habs eq_refl) as (Habs1 & _ & _ & Habs2).
  split; [exact Hrel1|]. split; [exact Habs1|]. split.
  - apply (Hrel2 (worker (Some [deploy_key])) _ {["file" := "relative/path"]}).
    + vm_compute; reflexivity.
    + vm_compute; reflexivity.
  - apply (Habs2 (worker (Some [deploy_key])) _ {["file" := "/abs/path"]}
             [deploy_key]).
    + vm_compute; reflexivity.
    + vm_compute; reflexivity.
    + reflexivity.
    + vm_compute; reflexivity.
Defined.

(** The key deploy requested with the field file empty, and with no
    field file. *)
Lemma empty_destination_installs_to_default_witness :
  parseBody (request "deploy" (file_body "")) = Ok {["file" := ""]} ∧
  parseBody (request "deploy" "{}") = Ok ∅ ∧
  calls_of (keyInstallHandler (worker (Some [deploy_key]))
              (request "deploy" (file_body "")))
  = [CallInstallKey deploy_key] ∧
  calls_of (keyInstallHandler (worker (Some [deploy_key]))
              (request "deploy" "{}"))
  = [CallInstallKey deploy_key].
Proof.
  assert (parseBody (request "deploy" (file_body "")) = Ok {["file" := ""]})
    as He by (vm_compute; reflexivity).
  assert (parseBody (request "deploy" "{}") = Ok ∅)
    as Ho by (vm_compute; reflexivity).
  assert (lookupKey [deploy_key] "deploy" = Some deploy_key)
    as Hk by (vm_compute; reflexivity).
  do 2 (split; [assumption|]).
  destruct (empty_destination_installs_to_default ([] : FS) deploy_key)
    as (_ & _ & _ & Hreq).
  split.
  - apply (Hreq (worker (Some [deploy_key])) _ _ [deploy_key] He);
      [right; vm_compute; reflexivity | reflexivity | exact Hk].
  - apply (Hreq (worker (Some [deploy_key])) _ _ [deploy_key] Ho);
      [left; vm_compute; reflexivity | reflexivity | exact Hk].
Defined.

(** * The further properties at concrete inputs *)

(** ** Loads *)

(** Row 1 loaded with clear text. *)
Lemma load_returns_only_verified_rows_witness :
  outcome (load db0 (byIDQuery 1) true) = Ok (setModel model7 github) ∧
  ∃ r m,
    Get db0 (byIDQuery 1) [WithDecryption] = Ok (Some r)
    ∧ CheckSignature r (Signature r) = Ok true
    ∧ LoadModel db0 (IntegrationModelID (Integration_ r)) true = Ok m
    ∧ setModel model7 github
      = (if true then setModel m (Integration_ r)
         else Blur (setModel m (Integration_ r))).
Proof.
  assert (outcome (load db0 (byIDQuery 1) true) = Ok (setModel model7 github))
    as Hload by (vm_compute; reflexivity).
  split; [exact Hload|].
  exact (load_returns_only_verified_rows db0 (byIDQuery 1) true _ Hload).
Defined.

(** The resolver calls of the load of row 1 and of the batch of
    project 10. *)
Lemma resolver_called_only_for_verified_rows_witness :
  EvLoadModel 7 false ∈ trace (load db0 (byIDQuery 1) false) ∧
  EvLoadModel 7 false ∈ trace (loadAll db0 (byProjectIDQuery 10) false) ∧
  (∃ r, Get db0 (byIDQuery 1) [WithDecryption] = Ok (Some r)
        ∧ CheckSignature r (Signature r) = Ok true
        ∧ 7 = IntegrationModelID (Integration_ r) ∧ false = false) ∧
  (∃ pp r, GetAll db0 (byProjectIDQuery 10) [WithDecryption] = Ok pp
           ∧ r ∈ pp ∧ CheckSignature r (Signature r) = Ok true
           ∧ 7 = IntegrationModelID (Integration_ r) ∧ false = false).
Proof.
  assert (EvLoadModel 7 false ∈ trace (load db0 (byIDQuery 1) false))
    as Hone by (vm_compute; repeat constructor).
  assert (EvLoadModel 7 false
          ∈ trace (loadAll db0 (byProjectIDQuery 10) false))
    as Hall by (vm_compute; repeat constructor).
  do 2 (split; [assumption|]). split.
  - exact (proj1 (resolver_called_only_for_verified_rows
                    db0 (byIDQuery 1) false 7 false) Hone).
  - exact (proj2 (resolver_called_only_for_verified_rows
                    db0 (byProjectIDQuery 10) false 7 false) Hall).
Defined.

(** The second row of project 10, which does not verify. *)
Lemma loadAll_result_is_positionwise_witness :
  GetAll db0 (byProjectIDQuery 10) [WithDecryption]
  = Ok [ {| Integration_ := github; Signature := good_signature |};
         {| Integration_ := kafka; Signature := [x00] |} ] ∧
  outcome (loadAll db0 (byProjectIDQuery 10) false)
  = Ok [github_redacted; zeroIntegration] ∧
  ((CheckSignature {| Integration_ := kafka; Signature := [x00] |} [x00]
    = Ok false
    ∧ [github_redacted; zeroIntegration] !! 1%nat = Some zeroIntegration)
   ∨ (CheckSignature {| Integration_ := kafka; Signature := [x00] |} [x00]
      = Ok true
      ∧ ∃ m, LoadModel db0 7 false = Ok m
             ∧ [github_redacted; zeroIntegration] !! 1%nat
               = Some (Blur (setModel m kafka)))).
Proof.
  assert (GetAll db0 (byProjectIDQuery 10) [WithDecryption]
          = Ok [ {| Integration_ := github; Signature := good_signature |};
                 {| Integration_ := kafka; Signature := [x00] |} ])
    as Hpp by (vm_compute; reflexivity).
  assert (outcome (loadAll db0 (byProjectIDQuery 10) false)
          = Ok [github_redacted; zeroIntegration])
    as Hok by (vm_compute; reflexivity).
  do 2 (split; [assumption|]).
  exact (loadAll_result_is_positionwise db0 (byProjectIDQuery 10) false
           _ _ 1%nat _ Hpp Hok eq_refl).
Defined.

(** A batch whose second row carries no signature. *)
Lemma loadAll_fails_on_verification_error_witness :
  GetAll db_unsigned (byProjectIDQuery 10) [WithDecryption] = Ok db_unsigned ∧
  CheckSignature (Store := unsigned_store)
    {| Integration_ := orphan; Signature := [] |} []
  = Err "no signature to check" ∧
  ∃ e', outcome (loadAll db_unsigned (byProjectIDQuery 10) true) = Err e'.
Proof.
  split; [reflexivity|]. split; [reflexivity|].
  apply (loadAll_fails_on_verification_error db_unsigned
           (byProjectIDQuery 10) true db_unsigned
           {| Integration_ := orphan; Signature := [] |}
           "no signature to check").
  - reflexivity.
  - right. left.
  - reflexivity.
Defined.

(** ** Associations *)

(** Workflow 5 unlinked from integration 1, and from integration 2, to
    which it was not linked. *)
Lemma RemoveFromWorkflow_removes_only_the_pair_witness :
  fault links0 = None ∧
  (RemoveFromWorkflow links0 5 1).1 = None ∧
  link_count (RemoveFromWorkflow links0 5 1).2 5 1 = 0%nat ∧
  (RemoveFromWorkflow links0 5 2).1 = None ∧
  (RemoveFromWorkflow links0 5 2).2 = links0.
Proof.
  assert (fault links0 = None) as Hf by reflexivity.
  pose proof (RemoveFromWorkflow_removes_only_the_pair links0 5 1 Hf) as H1.
  pose proof (RemoveFromWorkflow_removes_only_the_pair links0 5 2 Hf) as H2.
  cbv zeta in H1, H2.
  destruct H1 as (Hnil1 & Hcount & _ & _).
  destruct H2 as (Hnil2 & _ & _ & Hsame).
  split; [exact Hf|]. split; [exact Hnil1|]. split; [exact Hcount|].
  split; [exact Hnil2|]. apply Hsame.
  simpl. intros Hin. apply list_elem_of_singleton in Hin. discriminate Hin.
Defined.

(** Workflow 5 deleted. *)
Lemma DeleteFromWorkflow_clears_the_workflow_witness :
  fault links0 = None ∧
  (DeleteFromWorkflow links0 5).1 = None ∧
  link_count (DeleteFromWorkflow links0 5).2 5 1 = 0%nat ∧
  link_count (DeleteFromWorkflow links0 5).2 6 1 = link_count links0 6 1.
Proof.
  assert (fault links0 = None) as Hf by reflexivity.
  pose proof (DeleteFromWorkflow_clears_the_workflow links0 5 Hf) as H.
  cbv zeta in H. destruct H as (Hnil & Hnone & Hother).
  split; [exact Hf|]. split; [exact Hnil|]. split; [apply Hnone|].
  apply Hother. discriminate.
Defined.

(** Workflow 5 linked to integration 2 and unlinked again. *)
Lemma AddOnWorkflow_then_RemoveFromWorkflow_witness :
  fault links0 = None ∧
  ((5, 2) ∉ workflow_project_integration links0) ∧
  (RemoveFromWorkflow (AddOnWorkflow links0 5 2).2 5 2).2 = links0.
Proof.
  assert ((5, 2) ∉ workflow_project_integration links0) as Habs.
  { simpl. intros Hin. apply list_elem_of_singleton in Hin. discriminate Hin. }
  split; [reflexivity|]. split; [exact Habs|].
  exact (AddOnWorkflow_then_RemoveFromWorkflow links0 5 2 eq_refl Habs).
Defined.

(** Workflow 5 linked to integration 2; the row of integration 1 stays. *)
Lemma AddOnWorkflow_touches_only_its_pair_witness :
  fault links0 = None ∧
  (5, 2) ∈ workflow_project_integration (AddOnWorkflow links0 5 2).2 ∧
  link_count (AddOnWorkflow links0 5 2).2 5 1 = link_count links0 5 1 ∧
  (5, 1) ∈ workflow_project_integration (AddOnWorkflow links0 5 2).2.
Proof.
  assert (fault links0 = None) as Hf by reflexivity.
  pose proof (AddOnWorkflow_touches_only_its_pair links0 5 2 Hf) as H.
  cbv zeta in H. destruct H as (_ & Hin & Hother & Hkept).
  split; [exact Hf|]. split; [exact Hin|]. split.
  - apply Hother. discriminate.
  - apply Hkept. simpl. left.
Defined.

(** An executor that runs statements, and one that does not. *)
Lemma association_operations_keep_pairs_unique_witness :
  NoDup (workflow_project_integration links0) ∧
  NoDup (workflow_project_integration (AddOnWorkflow links0 5 2).2) ∧
  (AddOnWorkflow links_down 5 2).1 = Some (Stack NotFound) ∧
  (AddOnWorkflow links_down 5 2).2 = links_down.
Proof.
  assert (NoDup (workflow_project_integration links0)) as Hnd
    by apply NoDup_singleton.
  assert (NoDup (workflow_project_integration links_down)) as Hnd'
    by apply NoDup_singleton.
  assert ((AddOnWorkflow links_down 5 2).1 = Some (Stack NotFound))
    as Herr by reflexivity.
  destruct (association_operations_keep_pairs_unique links0 5 2 Hnd)
    as [(Hadd & _ & _) _].
  destruct (association_operations_keep_pairs_unique links_down 5 2 Hnd')
    as (_ & Hsame & _ & _).
  split; [exact Hnd|]. split; [exact Hadd|]. split; [exact Herr|].
  exact (Hsame _ Herr).
Defined.

(** ** Key provisioning *)


(** A job without secrets: no call, and no file written. *)
Lemma at_most_one_install_call_witness :
  calls_of (keyInstallHandler (worker None) (request "deploy" "")) = [] ∧
  world_of (keyInstallHandler (worker None) (request "deploy" "")) = [].
Proof.
  assert (calls_of (keyInstallHandler (worker None) (request "deploy" ""))
          = []) as Hnone by reflexivity.
  split; [exact Hnone|].
  exact (proj2 (at_most_one_install_call (worker None) (request "deploy" ""))
           Hnone).
Defined.

(** The key deploy installed to the default location, from a job that
    holds three secrets. *)
Lemma install_uses_only_the_named_job_secret_witness :
  CallInstallKey deploy_key
  ∈ calls_of (keyInstallHandler
                (worker (Some [other_key; deploy_key; stale_deploy_key]))
                (request "deploy" "")) ∧
  ∃ secrets key,
    Some [other_key; deploy_key; stale_deploy_key] = Some secrets
    ∧ key ∈ secrets
    ∧ KeyHandler.Name key = "cds.key." +:+ "deploy" +:+ ".priv"
    ∧ (CallInstallKey deploy_key = CallInstallKey key
       ∨ ∃ filename, CallInstallKey deploy_key = CallInstallKeyTo key filename).
Proof.
  assert (CallInstallKey deploy_key
          ∈ calls_of (keyInstallHandler
                        (worker (Some [other_key; deploy_key;
                                       stale_deploy_key]))
                        (request "deploy" ""))) as Hin
    by (vm_compute; repeat constructor).
  split; [exact Hin|].
  exact (install_uses_only_the_named_job_secret _ _ _ Hin).
Defined.

(** The key deploy installed to /abs/path. *)
Lemma InstallKeyTo_only_with_the_supplied_absolute_path_witness :
  CallInstallKeyTo deploy_key "/abs/path"
  ∈ calls_of (keyInstallHandler (worker (Some [deploy_key]))
                (request "deploy" (file_body "/abs/path"))) ∧
  ∃ mapBody,
    parseBody (request "deploy" (file_body "/abs/path")) = Ok mapBody
    ∧ mapBody !! "file" = Some "/abs/path"
    ∧ "/abs/path" ≠ ""
    ∧ PathIsAbs "/abs/path" = true.
Proof.
  assert (CallInstallKeyTo deploy_key "/abs/path"
          ∈ calls_of (keyInstallHandler (worker (Some [deploy_key]))
                        (request "deploy" (file_body "/abs/path")))) as Hin
    by (vm_compute; repeat constructor).
  split; [exact Hin|].
  exact (InstallKeyTo_only_with_the_supplied_absolute_path _ _ _ _ Hin).
Defined.

(** Two secrets named as the key deploy, after one of another name: the
    first of the two is written. *)
Lemma first_matching_secret_is_installed_witness :
  parseBody (request "deploy" "") = Ok ∅ ∧
  calls_of (keyInstallHandler
              (worker (Some ([other_key] ++ deploy_key :: [stale_deploy_key])))
              (request "deploy" ""))
  = [CallInstallKey deploy_key] ∧
  world_of (keyInstallHandler
              (worker (Some ([other_key] ++ deploy_key :: [stale_deploy_key])))
              (request "deploy" ""))
  = [("/tmp/cds.key.deploy.priv", "PRIVATE KEY")].
Proof.
  assert (parseBody (request "deploy" "") = Ok ∅) as Hparse by reflexivity.
  split; [exact Hparse|].
  pose proof (first_matching_secret_is_installed
                (worker (Some ([other_key] ++ deploy_key
                               :: [stale_deploy_key])))
                (request "deploy" "") ∅ [other_key] [stale_deploy_key]
                deploy_key Hparse eq_refl) as H.
  cbv zeta in H. destruct H as (_ & Hworld & _ & _ & Hcalls).
  - intros k Hk. apply list_elem_of_singleton in Hk as ->.
    vm_compute. discriminate.
  - reflexivity.
  - split; [exact (Hcalls eq_refl)|]. rewrite Hworld. reflexivity.
Defined.

(** The key deploy installed to the default location. *)
Lemma key_response_only_after_successful_install_witness :
  body (response_of (keyInstallHandler (worker (Some [deploy_key]))
                       (request "deploy" "")))
  = KeyBody {| PKey := "/tmp/cds.key.deploy.priv" |} ∧
  code (response_of (keyInstallHandler (worker (Some [deploy_key]))
                       (request "deploy" ""))) = 200.
Proof.
  assert (body (response_of (keyInstallHandler (worker (Some [deploy_key]))
                               (request "deploy" "")))
          = KeyBody {| PKey := "/tmp/cds.key.deploy.priv" |}) as Hbody
    by (vm_compute; reflexivity).
  split; [exact Hbody|].
  exact (proj1 (key_response_only_after_successful_install _ _ _ Hbody)).
Defined.

(** A disk that takes no file: the default install and the install to
    /abs/path. *)
Lemma install_failure_is_reported_witness :
  response_of (keyInstallHandler (readonly_worker (Some [deploy_key]))
                 (request "deploy" ""))
  = {| body := ErrorBody disk_full; code := 507 |} ∧
  response_of (keyInstallHandler (readonly_worker (Some [deploy_key]))
                 (request "deploy" (file_body "/abs/path")))
  = {| body := ErrorBody {| Message := "permission denied"; Status := 500 |};
       code := 500 |} ∧
  world_of (keyInstallHandler (readonly_worker (Some [deploy_key]))
              (request "deploy" "")) = {| attempts := 1 |}.
Proof.
  assert (parseBody (request "deploy" "") = Ok ∅) as Hp1 by reflexivity.
  assert (parseBody (request "deploy" (file_body "/abs/path"))
          = Ok {["file" := "/abs/path"]}) as Hp2 by (vm_compute; reflexivity).
  assert (lookupKey [deploy_key] "deploy" = Some deploy_key)
    as Hk by (vm_compute; reflexivity).
  destruct (install_failure_is_reported
              (readonly_worker (Some [deploy_key])) _ _ [deploy_key]
              deploy_key (SdkErrorPtr disk_full) {| attempts := 1 |}
              Hp1 eq_refl Hk) as [Hw1 Hr1].
  { left. split; reflexivity. }
  destruct (install_failure_is_reported
              (readonly_worker (Some [deploy_key])) _ _ [deploy_key]
              deploy_key (OtherError "permission denied") {| attempts := 1 |}
              Hp2 eq_refl Hk) as [_ Hr2].
  { right. split; [|split]; [vm_compute; discriminate | reflexivity
                            | vm_compute; reflexivity]. }
  split; [exact Hr1|]. split; [exact Hr2|exact Hw1].
Defined.
